(** * Job / worker tracking service: api/app/{models,schemas,main}.py

    A shallow embedding of the FastAPI application and of the part of
    SQLAlchemy / PostgreSQL it relies on, followed by the properties of the
    resource model.

    Conventions of the embedding.
    - A table is the list of its rows in insertion order.  Primary keys come
      from a PostgreSQL sequence that starts at 1 ([jobs_id_seq],
      [workers_id_seq]); integers are unbounded ([Z]).
    - The engine enforces what models.py declares: the primary keys and the
      foreign key [workers.job_id -> jobs.id]; a violated constraint is an
      IntegrityError, a subclass of SQLAlchemyError.
    - A handler is a computation in the [Session] monad: it threads the
      database and may raise a Python exception.
    - FastAPI builds the body parameter of a POST handler from the request
      before the handler is called; when the pydantic model rejects the body
      the handler never runs and the reply is 422 (main.py installs no
      handler for RequestValidationError).
    - An exception other than [HTTPException] that leaves a handler is
      answered with the server's 500.
    - The embedding stops at the value a handler returns: serialisation
      through [response_model] is not modelled.
    - A [str] is a [string], one character per element. *)

From Stdlib Require Import ZArith Lia Ascii String.
From stdpp Require Import base decidable option list sorting strings gmap pretty.

Local Open Scope Z_scope.

(** ** Python values *)

(** [datetime.date]: ordered as the tuple (year, month, day). *)
Record date := Date { year : Z; month : Z; day : Z }.

Definition date_ltb (a b : date) : bool :=
  (year a <? year b)
  || ((year a =? year b)
      && ((month a <? month b) || ((month a =? month b) && (day a <? day b)))).

(** [a > b], [a <= b], [a >= b] on dates, through [<]. *)
Definition date_gtb (a b : date) : bool := date_ltb b a.
Definition date_leb (a b : date) : bool := negb (date_ltb b a).
Definition date_geb (a b : date) : bool := negb (date_ltb a b).

Definition date_compare (a b : date) : comparison :=
  if date_ltb a b then Lt else if date_ltb b a then Gt else Eq.

(** Truth value testing ([if x:], [x and y], [not x]). *)
Class Truthy (A : Type) := truthy : A → bool.

(** A [str] is false exactly when empty. *)
#[global] Instance str_truthy : Truthy string :=
  λ s, match s with EmptyString => false | String _ _ => true end.
(** An [int] is false exactly when 0. *)
#[global] Instance int_truthy : Truthy Z := λ n, negb (n =? 0).
(** [date] defines neither [__bool__] nor [__len__]: always true. *)
#[global] Instance date_truthy : Truthy date := λ _, true.
(** [Optional[T]]: [None] is false. *)
#[global] Instance option_truthy {A} `{Truthy A} : Truthy (option A) :=
  λ o, match o with None => false | Some x => truthy x end.

(** The conditional assignment [if x: q = f(x, q)] on an optional [x]. *)
Definition if_truthy {A B} `{Truthy A} (x : option A) (f : A → B → B) (q : B) : B :=
  match x with
  | Some v => if truthy v then f v q else q
  | None => q
  end.

(** ** models.py *)

Module Job.
(** A row of table [jobs]. *)
Record t := mk {
  id : Z;
  name : string;
  customer : string;
  start_date : option date;
  end_date : option date;
  status : option string
}.
End Job.

Module Worker.
(** A row of table [workers]. *)
Record t := mk {
  id : Z;
  name : string;
  role : string;
  job_id : option Z
}.
End Worker.

(** ORM instances define neither [__bool__] nor [__len__]. *)
#[global] Instance Job_truthy : Truthy Job.t := λ _, true.
#[global] Instance Worker_truthy : Truthy Worker.t := λ _, true.

#[global] Instance date_eq_dec : EqDecision date.
Proof. solve_decision. Defined.
#[global] Instance Job_eq_dec : EqDecision Job.t.
Proof. solve_decision. Defined.
#[global] Instance Worker_eq_dec : EqDecision Worker.t.
Proof. solve_decision. Defined.

(** The committed content of the database. *)
Record Database := mkDatabase {
  jobs : list Job.t;
  workers : list Worker.t;
  jobs_id_seq : Z;
  workers_id_seq : Z
}.

(** The database after [Base.metadata.create_all] on an empty server. *)
Definition create_all : Database :=
  {| jobs := []; workers := []; jobs_id_seq := 1; workers_id_seq := 1 |}.

(** [Job.workers = relationship("Worker", back_populates="job", ...)]: the
    workers whose foreign key is the job's id. *)
Definition Job_workers (db : Database) (job_id : Z) : list Worker.t :=
  filter (λ w, Worker.job_id w = Some job_id) (workers db).

(** ** schemas.py *)

Module WorkerBase.
Record t := mk {
  name : string;
  role : string;
  job_id : option Z
}.
End WorkerBase.
Abbreviation WorkerCreate := WorkerBase.t.

Module JobBase.
Record t := mk {
  name : string;
  customer : string;
  start_date : option date;
  end_date : option date;
  status : option string
}.
End JobBase.
Abbreviation JobCreate := JobBase.t.

(** A [Job] instance with its [workers] relationship loaded; the attributes
    are those [JobResponse] reads ([from_attributes = True]). *)
Module JobResponse.
Record t := mk {
  id : Z;
  name : string;
  customer : string;
  start_date : option date;
  end_date : option date;
  status : option string;
  workers : list Worker.t
}.
End JobResponse.

Module JobAnalytics.
Record t := mk {
  total_jobs : Z;
  jobs_by_status : gmap string Z;
  total_workers : Z;
  workers_by_role : gmap string Z
}.
End JobAnalytics.

Module SortField.
(** [class SortField(str, Enum)] *)
Inductive t := name | start_date | customer | status.
Definition value (f : t) : string :=
  match f with
  | name => "name"
  | start_date => "start_date"
  | customer => "customer"
  | status => "status"
  end.
End SortField.
(** A member of an enumeration mixed with [str] has the truth value of its
    string. *)
#[global] Instance SortField_truthy : Truthy SortField.t :=
  λ f, truthy (SortField.value f).

(** [Field(..., min_length=1, max_length=100)]. *)
Definition length_1_100 (s : string) : bool :=
  let n := Z.of_nat (String.length s) in (1 <=? n) && (n <=? 100).

(** [pattern="^(In Progress|Completed|Cancelled)$"] of [JobBase.status]. *)
Definition JobBase_status_pattern (s : string) : bool :=
  bool_decide (s = "In Progress" ∨ s = "Completed" ∨ s = "Cancelled")%string.

(** [pattern="^(Pending|In Progress|Completed|Cancelled)$"] of the [status]
    query parameter of [get_jobs]. *)
Definition get_jobs_status_pattern (s : string) : bool :=
  bool_decide (s = "Pending" ∨ s = "In Progress" ∨ s = "Completed" ∨ s = "Cancelled")%string.

(** [JobBase.validate_dates]: [values] holds the fields validated before
    [end_date], of which the validator reads [start_date]. *)
Definition validate_dates (end_date : option date) (values_start_date : option date)
  : string + option date :=
  match values_start_date, end_date with
  | Some s, Some e =>
      (* both are truthy; [end_date < start_date] decides *)
      if truthy s && truthy e && date_ltb e s
      then inl "end_date must be after start_date"%string
      else inr end_date
  | _, _ => inr end_date
  end.

(** Building a [JobCreate] from the fields of a request body: every field is
    checked, and the instance exists only when all checks pass.  (Without
    [always=True] pydantic skips the validator when [end_date] is left out;
    on [None] the validator returns [None], so running it changes nothing.) *)
Definition JobCreate_validate (body : JobBase.t) : string + JobBase.t :=
  if negb (length_1_100 (JobBase.name body)) then inl "name"%string
  else if negb (length_1_100 (JobBase.customer body)) then inl "customer"%string
  else match validate_dates (JobBase.end_date body) (JobBase.start_date body) with
       | inl msg => inl msg
       | inr end_date =>
           match JobBase.status body with
           | Some s =>
               if JobBase_status_pattern s
               then inr (JobBase.mk (JobBase.name body) (JobBase.customer body)
                           (JobBase.start_date body) end_date (Some s))
               else inl "status"%string
           | None =>
               inr (JobBase.mk (JobBase.name body) (JobBase.customer body)
                      (JobBase.start_date body) end_date None)
           end
       end.

Definition WorkerCreate_validate (body : WorkerBase.t) : string + WorkerBase.t :=
  if negb (length_1_100 (WorkerBase.name body)) then inl "name"%string
  else if negb (length_1_100 (WorkerBase.role body)) then inl "role"%string
  else inr body.

(** ** The SQLAlchemy session *)

Inductive Exception :=
| HTTPException (status_code : Z) (detail : string)
| SQLAlchemyError (orig : string)
| ValueError (msg : string)
| AttributeError (msg : string).

(** [fastapi.status] *)
Definition HTTP_201_CREATED : Z := 201.
Definition HTTP_204_NO_CONTENT : Z := 204.
Definition HTTP_400_BAD_REQUEST : Z := 400.
Definition HTTP_404_NOT_FOUND : Z := 404.
Definition HTTP_422_UNPROCESSABLE_ENTITY : Z := 422.
Definition HTTP_500_INTERNAL_SERVER_ERROR : Z := 500.

(** A block of Python run against the database: it ends in a value or in a
    raised exception, and leaves a database behind. *)
Definition Session (A : Type) : Type := Database → (Exception + A) * Database.

#[global] Instance Session_ret : MRet Session := λ A a db, (inr a, db).
#[global] Instance Session_bind : MBind Session := λ A B f m db,
  match m db with
  | (inr a, db') => f a db'
  | (inl e, db') => (inl e, db')
  end.

Definition raise {A} (e : Exception) : Session A := λ db, (inl e, db).

(** [obj.name] on a [str] or on [None], for a [name] that neither type
    defines. *)
Definition no_attribute {A} (obj : option string) (name : string) : Session A :=
  raise (AttributeError
           (match obj with
            | Some _ => "'str' object has no attribute '" +:+ name +:+ "'"
            | None => "'NoneType' object has no attribute '" +:+ name +:+ "'"
            end)).

(** [try: body  except ValueError as e: handler(str(e))] *)
Definition except_ValueError {A} (body : Session A) (handler : string → Session A)
  : Session A := λ db,
  match body db with
  | (inl (ValueError e), db') => handler e db'
  | r => r
  end.

(** [with get_db() as db: body].  Every write of the handlers below is made
    and committed in one step, so the session holds nothing uncommitted when
    an exception arrives and [db.rollback()] leaves the tables as they are. *)
Definition get_db {A} (body : Session A) : Session A := λ db,
  match body db with
  | (inl (SQLAlchemyError _), db') =>
      (inl (HTTPException HTTP_500_INTERNAL_SERVER_ERROR "Database error occurred"), db')
  | r => r
  end.

(** [db.query(...)] with its [.filter] and [.order_by] calls: evaluated
    against the database when [.first()] or [.all()] runs. *)
Definition Query (A : Type) : Type := Database → list A.

Definition query_Job : Query Job.t := jobs.
Definition query_Worker : Query Worker.t := workers.

Definition load_workers (db : Database) (j : Job.t) : JobResponse.t :=
  JobResponse.mk (Job.id j) (Job.name j) (Job.customer j) (Job.start_date j)
    (Job.end_date j) (Job.status j) (Job_workers db (Job.id j)).

(** [db.query(Job).options(joinedload(Job.workers))] *)
Definition query_Job_joinedload_workers : Query JobResponse.t :=
  λ db, load_workers db <$> jobs db.

(** [.filter(criterion)]: keeps the rows on which the criterion is true (a
    comparison with NULL is not). *)
Definition Query_filter {A} (criterion : A → bool) (q : Query A) : Query A :=
  λ db, filter (λ x, criterion x = true) (q db).

Definition first {A} (q : Query A) : Session (option A) := λ db, (inr (head (q db)), db).
Definition all {A} (q : Query A) : Session (list A) := λ db, (inr (q db), db).

(** [column >= value] and [column <= value] on a nullable date column. *)
Definition sql_ge (column : option date) (value : date) : bool :=
  from_option (λ d, date_geb d value) false column.
Definition sql_le (column : option date) (value : date) : bool :=
  from_option (λ d, date_leb d value) false column.

(** Ordering of a nullable column: PostgreSQL puts NULL last in ascending
    order. *)
Definition nulls_last {A} (cmp : A → A → comparison) (x y : option A) : comparison :=
  match x, y with
  | Some a, Some b => cmp a b
  | Some _, None => Lt
  | None, Some _ => Gt
  | None, None => Eq
  end.

(** [Job(...)] on the fields of [job.model_dump()], with the id the INSERT
    gives it; [Worker(...)] likewise. *)
Definition Job_of (id : Z) (job : JobBase.t) : Job.t :=
  Job.mk id (JobBase.name job) (JobBase.customer job) (JobBase.start_date job)
    (JobBase.end_date job) (JobBase.status job).
Definition Worker_of (id : Z) (worker : WorkerBase.t) : Worker.t :=
  Worker.mk id (WorkerBase.name worker) (WorkerBase.role worker) (WorkerBase.job_id worker).

(** [db_job = Job(...); db.add(db_job); db.commit()]: an INSERT whose id is
    the next value of the sequence.  The sequence advances whether or not the
    row is accepted. *)
Definition add_commit_Job (job : JobBase.t) : Session Z := λ db,
  let id := jobs_id_seq db in
  if bool_decide (id ∈ Job.id <$> jobs db)
  then (inl (SQLAlchemyError "IntegrityError: jobs_pkey"),
        mkDatabase (jobs db) (workers db) (id + 1) (workers_id_seq db))
  else (inr id,
        mkDatabase
          (jobs db ++ [Job_of id job]) (workers db) (id + 1) (workers_id_seq db)).

(** [db.refresh(db_job)]: reloads the row by primary key. *)
Definition refresh_Job (id : Z) : Session Job.t := λ db,
  match head (filter (λ j, Job.id j = id) (jobs db)) with
  | Some j => (inr j, db)
  | None => (inl (SQLAlchemyError "InvalidRequestError: could not refresh instance"), db)
  end.

(** The foreign key [workers.job_id -> jobs.id]; NULL is always allowed. *)
Definition workers_job_id_fkey (db : Database) (job_id : option Z) : bool :=
  match job_id with
  | Some j => bool_decide (j ∈ Job.id <$> jobs db)
  | None => true
  end.

(** [db_worker = Worker(...); db.add(db_worker); db.commit()] *)
Definition add_commit_Worker (worker : WorkerBase.t) : Session Z := λ db,
  let id := workers_id_seq db in
  if bool_decide (id ∈ Worker.id <$> workers db)
  then (inl (SQLAlchemyError "IntegrityError: workers_pkey"),
        mkDatabase (jobs db) (workers db) (jobs_id_seq db) (id + 1))
  else if negb (workers_job_id_fkey db (WorkerBase.job_id worker))
  then (inl (SQLAlchemyError "IntegrityError: workers_job_id_fkey"),
        mkDatabase (jobs db) (workers db) (jobs_id_seq db) (id + 1))
  else (inr id,
        mkDatabase (jobs db) (workers db ++ [Worker_of id worker])
          (jobs_id_seq db) (id + 1)).

(** [db.refresh(db_worker)] *)
Definition refresh_Worker (id : Z) : Session Worker.t := λ db,
  match head (filter (λ w, Worker.id w = id) (workers db)) with
  | Some w => (inr w, db)
  | None => (inl (SQLAlchemyError "InvalidRequestError: could not refresh instance"), db)
  end.

(** [db.delete(job); db.commit()]: with [cascade="all, delete-orphan"] the
    session deletes the workers of [job.workers], then the job. *)
Definition delete_commit (job : Job.t) : Session unit := λ db,
  (inr (),
   mkDatabase
     (filter (λ j, Job.id j ≠ Job.id job) (jobs db))
     (filter (λ w, Worker.job_id w ≠ Some (Job.id job)) (workers db))
     (jobs_id_seq db) (workers_id_seq db)).

Definition set_job_id (job_id : Z) (w : Worker.t) : Worker.t :=
  Worker.mk (Worker.id w) (Worker.name w) (Worker.role w) (Some job_id).

(** The UPDATE on a row of [workers]: it changes the row whose primary key
    is [worker_id]. *)
Definition assigned (worker_id job_id : Z) (w : Worker.t) : Worker.t :=
  if decide (Worker.id w = worker_id) then set_job_id job_id w else w.

(** [worker.job_id = job_id; db.commit()] *)
Definition set_job_id_commit (worker : Worker.t) (job_id : Z) : Session unit := λ db,
  if negb (workers_job_id_fkey db (Some job_id))
  then (inl (SQLAlchemyError "IntegrityError: workers_job_id_fkey"), db)
  else (inr (),
        mkDatabase (jobs db) (assigned (Worker.id worker) job_id <$> workers db)
          (jobs_id_seq db) (workers_id_seq db)).

(** [db.refresh(worker)] after the assignment. *)
Definition refresh_assigned (worker : Worker.t) : Session Worker.t :=
  refresh_Worker (Worker.id worker).

(** [job.workers], loaded when the handler reads it. *)
Definition relationship_workers (job : Job.t) : Session (list Worker.t) :=
  λ db, (inr (Job_workers db (Job.id job)), db).

(** [db.query(func.count(column)).scalar()] on a column that is never NULL. *)
Definition func_count {A} (rows : list A) : Z := Z.of_nat (length rows).
Definition scalar_count {A} (q : Query A) : Session Z := λ db, (inr (func_count (q db)), db).

(** [func.count(id)] of the group [k] of a column. *)
Definition group_count {A K} `{EqDecision K} (column : A → K) (rows : list A) (k : K) : Z :=
  func_count (filter (λ r, column r = k) rows).

(** [db.query(column, func.count(id)).group_by(column).all()]: one pair per
    distinct value of the column (NULL is a group of its own). *)
Definition group_by_count {A K} `{EqDecision K} (column : A → K) (q : Query A)
  : Session (list (K * Z)) := λ db,
  (inr ((λ k, (k, group_count column (q db) k)) <$> remove_dups (column <$> q db)), db).

(** [dict(pairs)] and the dict comprehension: a later pair replaces an
    earlier one with the same key. *)
Definition dict (pairs : list (string * Z)) : gmap string Z :=
  foldl (λ d kv, <[kv.1 := kv.2]> d) ∅ pairs.

(** The sum of the values of a dict. *)
Definition dict_sum (d : gmap string Z) : Z := map_fold (λ _ count acc, count + acc) 0 d.

(** ** main.py *)

(** [status if status else "Unspecified"], the key of a status in
    [jobs_by_status]. *)
Definition status_key (status : option string) : string :=
  if_truthy status (λ status _, status) "Unspecified"%string.

(** [if x: body(x)] on an optional [x], as a statement. *)
Definition when_truthy {A} `{Truthy A} (x : option A) (body : A → Session unit)
  : Session unit :=
  match x with
  | Some v => if truthy v then body v else mret ()
  | None => mret ()
  end.

Section main.
(** What the engine decides and the sources do not: [column ILIKE pattern]
    and the collation that orders text columns. *)
Variable ilike : string → string → bool.
Variable collate : string → string → comparison.

(** [getattr(Job, sort_by.value)] as the comparison [ORDER BY] makes. *)
Definition order_field (sort_by : SortField.t) (a b : JobResponse.t) : comparison :=
  match sort_by with
  | SortField.name => collate (JobResponse.name a) (JobResponse.name b)
  | SortField.start_date =>
      nulls_last date_compare (JobResponse.start_date a) (JobResponse.start_date b)
  | SortField.customer => collate (JobResponse.customer a) (JobResponse.customer b)
  | SortField.status =>
      nulls_last collate (JobResponse.status a) (JobResponse.status b)
  end.

(** [.desc()]: the reverse order, NULL first. *)
Definition desc_ (cmp : JobResponse.t → JobResponse.t → comparison)
  : JobResponse.t → JobResponse.t → comparison := λ a b, CompOpp (cmp a b).

(** [.order_by(order_field)]; SQL leaves the order of rows that compare
    equal open, here it is the one [merge_sort] gives. *)
Definition Query_order_by (cmp : JobResponse.t → JobResponse.t → comparison)
    (q : Query JobResponse.t) : Query JobResponse.t :=
  λ db, merge_sort (λ a b, cmp a b ≠ Gt) (q db).

Definition create_job (job : JobCreate) : Session (option JobResponse.t) :=
  get_db (
    except_ValueError (
      db_job ← add_commit_Job job;
      db_job ← refresh_Job db_job;
      first (Query_filter (λ j, JobResponse.id j =? Job.id db_job)
               query_Job_joinedload_workers))
      (λ e, raise (HTTPException HTTP_400_BAD_REQUEST e))).

(** The parameter [status] hides the module [fastapi.status] in the body of
    this handler. *)
Definition get_jobs (keyword status : option string)
    (start_after end_before : option date)
    (sort_by : option SortField.t) (desc : bool) : Session (list JobResponse.t) :=
  get_db (
    let query := query_Job_joinedload_workers in
    if match start_after, end_before with
       | Some s, Some e => truthy s && truthy e && date_gtb s e
       | _, _ => false
       end
    then
      (* [raise HTTPException(status_code=status.HTTP_400_BAD_REQUEST, ...)]:
         the arguments are evaluated first, and [status] is the parameter *)
      status_code ← no_attribute status "HTTP_400_BAD_REQUEST";
      raise (HTTPException status_code
               "start_after date must be before end_before date")
    else
      let query :=
        if_truthy keyword (λ keyword,
          Query_filter (λ j,
            ilike (JobResponse.name j) ("%" +:+ keyword +:+ "%")
            || ilike (JobResponse.customer j) ("%" +:+ keyword +:+ "%"))) query in
      let query :=
        if_truthy status (λ status,
          Query_filter (λ j, bool_decide (JobResponse.status j = Some status))) query in
      let query :=
        if_truthy start_after (λ start_after,
          Query_filter (λ j, sql_ge (JobResponse.start_date j) start_after)) query in
      let query :=
        if_truthy end_before (λ end_before,
          Query_filter (λ j, sql_le (JobResponse.end_date j) end_before)) query in
      let query :=
        if_truthy sort_by (λ sort_by,
          let order_field := order_field sort_by in
          let order_field := if desc then desc_ order_field else order_field in
          Query_order_by order_field) query in
      all query).

Definition job_not_found (job_id : Z) : Exception :=
  HTTPException HTTP_404_NOT_FOUND ("Job with id " +:+ pretty job_id +:+ " not found").
Definition worker_not_found (worker_id : Z) : Exception :=
  HTTPException HTTP_404_NOT_FOUND ("Worker with id " +:+ pretty worker_id +:+ " not found").

Definition get_job_by_id (job_id : Z) : Session JobResponse.t :=
  get_db (
    job ← first (Query_filter (λ j, JobResponse.id j =? job_id)
                   query_Job_joinedload_workers);
    match job with
    | Some job => mret job
    | None => raise (job_not_found job_id)
    end).

(** [if not job: raise ...]: an ORM instance is true, so [not job] holds of
    [None] alone; the [match] below and in the other look-ups is that test. *)
Definition delete_job (job_id : Z) : Session unit :=
  get_db (
    job ← first (Query_filter (λ j, Job.id j =? job_id) query_Job);
    match job with
    | Some job => delete_commit job
    | None => raise (job_not_found job_id)
    end).

Definition create_worker (worker : WorkerCreate) : Session Worker.t :=
  get_db (
    when_truthy (WorkerBase.job_id worker) (λ job_id,
      job ← first (Query_filter (λ j, Job.id j =? job_id) query_Job);
      if negb (truthy job) then raise (job_not_found job_id) else mret ());;
    db_worker ← add_commit_Worker worker;
    refresh_Worker db_worker).

Definition get_workers (name role : option string) (job_id : option Z)
  : Session (list Worker.t) :=
  get_db (
    let query := query_Worker in
    let query :=
      if_truthy name (λ name,
        Query_filter (λ w, ilike (Worker.name w) ("%" +:+ name +:+ "%"))) query in
    let query :=
      if_truthy role (λ role,
        Query_filter (λ w, ilike (Worker.role w) ("%" +:+ role +:+ "%"))) query in
    let query :=
      if_truthy job_id (λ job_id,
        Query_filter (λ w, bool_decide (Worker.job_id w = Some job_id))) query in
    all query).

Definition get_job_workers (job_id : Z) : Session (list Worker.t) :=
  get_db (
    job ← first (Query_filter (λ j, Job.id j =? job_id) query_Job);
    match job with
    | Some job => relationship_workers job
    | None => raise (job_not_found job_id)
    end).

Definition assign_worker_to_job (worker_id job_id : Z) : Session Worker.t :=
  get_db (
    worker ← first (Query_filter (λ w, Worker.id w =? worker_id) query_Worker);
    match worker with
    | None => raise (worker_not_found worker_id)
    | Some worker =>
        job ← first (Query_filter (λ j, Job.id j =? job_id) query_Job);
        if negb (truthy job) then raise (job_not_found job_id)
        else
          set_job_id_commit worker job_id;;
          refresh_assigned worker
    end).

Definition get_analytics : Session JobAnalytics.t :=
  get_db (
    total_jobs ← scalar_count query_Job;
    status_counts ← group_by_count Job.status query_Job;
    let jobs_by_status :=
      dict ((λ '(status, count), (status_key status, count)) <$> status_counts) in
    total_workers ← scalar_count query_Worker;
    role_counts ← group_by_count Worker.role query_Worker;
    let workers_by_role := dict role_counts in
    mret (JobAnalytics.mk total_jobs jobs_by_status total_workers workers_by_role)).
End main.

(** ** The application *)

(** What the client receives: the handler's value under the status code of
    the route, or the status code and detail of an error. *)
Inductive Response (A : Type) : Type :=
| Content (status_code : Z) (body : A)
| ErrorDetail (status_code : Z) (detail : string).
Arguments Content {A} status_code body.
Arguments ErrorDetail {A} status_code detail.

Definition status_code_of {A} (r : Response A) : Z :=
  match r with
  | Content c _ => c
  | ErrorDetail c _ => c
  end.

(** A route: an [HTTPException] becomes its own reply, any other exception
    that leaves the handler is the server's 500. *)
Definition route {A} (status_code : Z) (handler : Session A)
  : Database → Response A * Database := λ db,
  match handler db with
  | (inr a, db') => (Content status_code a, db')
  | (inl (HTTPException c d), db') => (ErrorDetail c d, db')
  | (inl _, db') => (ErrorDetail HTTP_500_INTERNAL_SERVER_ERROR "Internal Server Error", db')
  end.

(** A route with a body parameter: the body is validated first, and a
    rejected body is answered with 422 without calling the handler. *)
Definition route_body {B A} (validate : B → string + B) (status_code : Z)
    (handler : B → Session A) (body : B) : Database → Response A * Database := λ db,
  match validate body with
  | inl errors => (ErrorDetail HTTP_422_UNPROCESSABLE_ENTITY errors, db)
  | inr model => route status_code (handler model) db
  end.

(** [@app.post("/jobs/", status_code=201)] *)
Definition POST_jobs : JobBase.t → Database → Response (option JobResponse.t) * Database :=
  route_body JobCreate_validate HTTP_201_CREATED create_job.
(** [@app.delete("/jobs/{job_id}", status_code=204)] *)
Definition DELETE_jobs (job_id : Z) : Database → Response unit * Database :=
  route HTTP_204_NO_CONTENT (delete_job job_id).
(** [@app.post("/workers/", status_code=201)] *)
Definition POST_workers : WorkerBase.t → Database → Response Worker.t * Database :=
  route_body WorkerCreate_validate HTTP_201_CREATED create_worker.
(** [@app.put("/workers/{worker_id}/assign/{job_id}")] *)
Definition PUT_workers_assign (worker_id job_id : Z)
  : Database → Response Worker.t * Database :=
  route 200 (assign_worker_to_job worker_id job_id).
(** [@app.get("/analytics/")] *)
Definition GET_analytics : Database → Response JobAnalytics.t * Database :=
  route 200 get_analytics.

Section GET.
Variable ilike : string → string → bool.
Variable collate : string → string → comparison.

(** [@app.get("/jobs/")], on parameters that passed their [Query]
    constraints. *)
Definition GET_jobs keyword status start_after end_before sort_by desc
  : Database → Response (list JobResponse.t) * Database :=
  route 200 (get_jobs ilike collate keyword status start_after end_before sort_by desc).
(** [@app.get("/workers/")] *)
Definition GET_workers name role job_id
  : Database → Response (list Worker.t) * Database :=
  route 200 (get_workers ilike name role job_id).
End GET.

(** [@app.get("/jobs/{job_id}")] and [@app.get("/jobs/{job_id}/workers/")] *)
Definition GET_job (job_id : Z) : Database → Response JobResponse.t * Database :=
  route 200 (get_job_by_id job_id).
Definition GET_job_workers (job_id : Z) : Database → Response (list Worker.t) * Database :=
  route 200 (get_job_workers job_id).

(** The operations that write, and the states they lead to from the empty
    database. *)
Inductive Operation :=
| createJob (input : JobBase.t)
| createWorker (input : WorkerBase.t)
| assignWorker (worker_id job_id : Z)
| deleteJob (job_id : Z).

Definition run (db : Database) (op : Operation) : Database :=
  match op with
  | createJob input => (POST_jobs input db).2
  | createWorker input => (POST_workers input db).2
  | assignWorker worker_id job_id => (PUT_workers_assign worker_id job_id db).2
  | deleteJob job_id => (DELETE_jobs job_id db).2
  end.

Definition execute (ops : list Operation) : Database := foldl run create_all ops.

(** ** A concrete engine, for running the handlers *)

Definition ascii_lower (c : ascii) : ascii :=
  let n := Ascii.nat_of_ascii c in
  if ((65 <=? n) && (n <=? 90))%nat then Ascii.ascii_of_nat (n + 32) else c.

(** LIKE on ASCII text without regard to case: [%] is any run of characters,
    [_] any one character, a backslash takes the next character literally. *)
Fixpoint like_chars (pattern : list ascii) : list ascii → bool :=
  match pattern with
  | [] => λ s, match s with [] => true | _ :: _ => false end
  | "%"%char :: p =>
      fix any (s : list ascii) : bool :=
        like_chars p s || match s with [] => false | _ :: s' => any s' end
  | "_"%char :: p => λ s, match s with [] => false | _ :: s' => like_chars p s' end
  | "\"%char :: c :: p =>
      λ s, match s with
           | [] => false
           | d :: s' => bool_decide (ascii_lower c = ascii_lower d) && like_chars p s'
           end
  | c :: p =>
      λ s, match s with
           | [] => false
           | d :: s' => bool_decide (ascii_lower c = ascii_lower d) && like_chars p s'
           end
  end.

Definition ilike_ascii (column pattern : string) : bool :=
  like_chars (list_ascii_of_string pattern) (list_ascii_of_string column).

(** The "C" collation: byte order. *)
Definition collate_C : string → string → comparison := String.compare.

(** ** Sample data *)

Definition d (y m dd : Z) : date := Date y m dd.
Definition job_A : JobBase.t := JobBase.mk "A" "B" None None None.
Definition job_A_pending : JobBase.t := JobBase.mk "A" "B" None None (Some "Pending"%string).
Definition job_A_completed : JobBase.t := JobBase.mk "A" "B" None None (Some "Completed"%string).
Definition job_backwards : JobBase.t :=
  JobBase.mk "A" "B" (Some (d 2024 5 2)) (Some (d 2024 5 1)) None.
Definition worker_W (job_id : option Z) : WorkerBase.t := WorkerBase.mk "W" "R" job_id.

Definition db1 : Database :=
  execute [createJob job_A; createJob job_A_completed;
           createWorker (worker_W (Some 1)); createWorker (worker_W (Some 2));
           createWorker (worker_W None)].

(** ** Invariants of the store *)

Definition job_exists (db : Database) (job_id : Z) : Prop :=
  job_id ∈ Job.id <$> jobs db.
Definition worker_exists (db : Database) (worker_id : Z) : Prop :=
  worker_id ∈ Worker.id <$> workers db.

#[global] Instance job_exists_dec db job_id : Decision (job_exists db job_id).
Proof. unfold job_exists. apply _. Defined.
#[global] Instance worker_exists_dec db worker_id : Decision (worker_exists db worker_id).
Proof. unfold worker_exists. apply _. Defined.

(** Every worker whose [job_id] is set references an existing job. *)
Definition referential_integrity (db : Database) : Prop :=
  ∀ w job_id, w ∈ workers db → Worker.job_id w = Some job_id → job_exists db job_id.

(** The statuses a stored job can have. *)
Definition stored_status (status : option string) : Prop :=
  match status with
  | Some s => JobBase_status_pattern s = true
  | None => True
  end.

(** [end_date], when set along with [start_date], is not earlier. *)
Definition dates_ordered (start_date end_date : option date) : Prop :=
  match start_date, end_date with
  | Some s, Some e => date_ltb e s = false
  | _, _ => True
  end.

(** What holds of every database the application has built. *)
Record wf (db : Database) : Prop := {
  wf_jobs_seq_pos : 1 ≤ jobs_id_seq db;
  wf_workers_seq_pos : 1 ≤ workers_id_seq db;
  wf_jobs_seq : Forall (λ j, 1 ≤ Job.id j < jobs_id_seq db) (jobs db);
  wf_workers_seq : Forall (λ w, 1 ≤ Worker.id w < workers_id_seq db) (workers db);
  wf_jobs_pkey : NoDup (Job.id <$> jobs db);
  wf_workers_pkey : NoDup (Worker.id <$> workers db);
  wf_fkey : referential_integrity db;
  wf_status : Forall (λ j, stored_status (Job.status j)) (jobs db);
  wf_dates : Forall (λ j, dates_ordered (Job.start_date j) (Job.end_date j)) (jobs db)
}.

(** The sum of a list of counts. *)
Definition sumZ (l : list Z) : Z := foldr Z.add 0 l.

(** Closed decidable facts about the sample data. *)
Ltac by_decide :=
  unfold job_exists, worker_exists; apply (bool_decide_unpack _); vm_compute; exact I.

(** ** Vocabulary of the further properties *)

(** The test that guards the listing of jobs. *)
Definition inverted_range (start_after end_before : option date) : bool :=
  match start_after, end_before with
  | Some s, Some e => truthy s && truthy e && date_gtb s e
  | _, _ => false
  end.

(** A criterion that applies when its parameter is given and true. *)
Definition criterion {A B} `{Truthy A} (x : option A) (c : A → B → bool) (row : B) : bool :=
  match x with
  | Some v => if truthy v then c v row else true
  | None => true
  end.

(** The criteria of [get_jobs] on one job. *)
Definition job_matches (ilike : string → string → bool) (keyword status : option string)
    (start_after end_before : option date) (j : JobResponse.t) : bool :=
  criterion keyword (λ keyword j,
    ilike (JobResponse.name j) ("%" +:+ keyword +:+ "%")
    || ilike (JobResponse.customer j) ("%" +:+ keyword +:+ "%")) j
  && criterion status (λ status j, bool_decide (JobResponse.status j = Some status)) j
  && criterion start_after (λ start_after j, sql_ge (JobResponse.start_date j) start_after) j
  && criterion end_before (λ end_before j, sql_le (JobResponse.end_date j) end_before) j.

(** The criteria of [get_workers] on one worker. *)
Definition worker_matches (ilike : string → string → bool) (name role : option string)
    (job_id : option Z) (w : Worker.t) : bool :=
  criterion name (λ name w, ilike (Worker.name w) ("%" +:+ name +:+ "%")) w
  && criterion role (λ role w, ilike (Worker.role w) ("%" +:+ role +:+ "%")) w
  && criterion job_id (λ job_id w, bool_decide (Worker.job_id w = Some job_id)) w.

(** The order [get_jobs] asks for. *)
Definition job_order (collate : string → string → comparison) (sort_by : SortField.t)
    (desc : bool) : relation JobResponse.t := λ a b,
  (if desc then desc_ (order_field collate sort_by) else order_field collate sort_by) a b ≠ Gt.

#[global] Instance job_order_dec collate sort_by desc a b :
  Decision (job_order collate sort_by desc a b).
Proof. unfold job_order. apply _. Defined.

(** The order of the rows of a listing of jobs. *)
Definition ordered (collate : string → string → comparison) (sort_by : option SortField.t)
    (desc : bool) (l : list JobResponse.t) : list JobResponse.t :=
  match sort_by with
  | Some f => merge_sort (job_order collate f desc) l
  | None => l
  end.

(** The status code an operation is answered with. *)
Definition reply_status (db : Database) (op : Operation) : Z :=
  match op with
  | createJob input => status_code_of (POST_jobs input db).1
  | createWorker input => status_code_of (POST_workers input db).1
  | assignWorker worker_id job_id => status_code_of (PUT_workers_assign worker_id job_id db).1
  | deleteJob job_id => status_code_of (DELETE_jobs job_id db).1
  end.

(** Rows that pass the field constraints of schemas.py. *)
Definition Job_valid (j : Job.t) : Prop :=
  length_1_100 (Job.name j) = true
  ∧ length_1_100 (Job.customer j) = true
  ∧ dates_ordered (Job.start_date j) (Job.end_date j)
  ∧ stored_status (Job.status j).
Definition Worker_valid (w : Worker.t) : Prop :=
  length_1_100 (Worker.name w) = true ∧ length_1_100 (Worker.role w) = true.
Definition rows_valid (db : Database) : Prop :=
  Forall Job_valid (jobs db) ∧ Forall Worker_valid (workers db).

(** ** Properties *)

(** *** The session monad *)

Lemma bind_inr {A B} (m : Session A) (f : A → Session B) db a db' :
  m db = (inr a, db') → (m ≫= f) db = f a db'.
Proof. intros Hm. unfold mbind, Session_bind. by rewrite Hm. Qed.

Lemma bind_inl {A B} (m : Session A) (f : A → Session B) db e db' :
  m db = (inl e, db') → (m ≫= f) db = (inl e, db').
Proof. intros Hm. unfold mbind, Session_bind. by rewrite Hm. Qed.

Lemma filter_none {A} (P : A → Prop) `{∀ x, Decision (P x)} (l : list A) :
  (∀ x, x ∈ l → ¬ P x) → filter P l = [].
Proof.
  intros Hall. induction l as [|a l IH]; [done|].
  rewrite filter_cons_False; [|apply Hall; left].
  apply IH. intros x Hx. apply Hall. by right.
Qed.

Lemma filter_all {A} (P : A → Prop) `{∀ x, Decision (P x)} (l : list A) :
  (∀ x, x ∈ l → P x) → filter P l = l.
Proof.
  intros Hall. induction l as [|a l IH]; [done|].
  rewrite filter_cons_True; [|apply Hall; left].
  f_equal. apply IH. intros x Hx. apply Hall. by right.
Qed.

(** *** Queries by primary key *)

Lemma head_filter_None {A} (P : A → Prop) `{∀ x, Decision (P x)} (l : list A) :
  head (filter P l) = None ↔ ∀ x, x ∈ l → ¬ P x.
Proof.
  induction l as [|a l IH]; simpl.
  - split; [intros _ x Hx; inversion Hx | done].
  - rewrite filter_cons. destruct (decide (P a)) as [Ha|Ha]; simpl.
    + split; [done | intros Hall; exfalso; apply (Hall a); [left | done]].
    + rewrite IH. split.
      * intros Hall x Hx. apply elem_of_cons in Hx as [->|Hx]; auto.
      * intros Hall x Hx. apply Hall. by right.
Qed.

Lemma head_filter_elem {A} (P : A → Prop) `{∀ x, Decision (P x)} (l : list A) x :
  head (filter P l) = Some x → x ∈ l ∧ P x.
Proof.
  intros Hh. apply head_Some_elem_of in Hh. by apply list_elem_of_filter in Hh as [? ?].
Qed.

Lemma first_job_None db job_id :
  head (filter (λ j, (Job.id j =? job_id) = true) (jobs db)) = None ↔ ¬ job_exists db job_id.
Proof.
  rewrite head_filter_None. unfold job_exists. rewrite list_elem_of_fmap. split.
  - intros Hall (j & -> & Hj). apply (Hall j Hj). apply Z.eqb_refl.
  - intros Hno j Hj Heq. apply Hno. exists j. split; [|done]. symmetry. by apply Z.eqb_eq.
Qed.

Lemma first_job_Some db job_id j :
  head (filter (λ j, (Job.id j =? job_id) = true) (jobs db)) = Some j →
  j ∈ jobs db ∧ Job.id j = job_id.
Proof. intros Hh. apply head_filter_elem in Hh as [? ?%Z.eqb_eq]. done. Qed.

Lemma first_job_exists db job_id :
  job_exists db job_id →
  ∃ j, head (filter (λ j, (Job.id j =? job_id) = true) (jobs db)) = Some j.
Proof.
  intros Hex.
  destruct (head (filter _ (jobs db))) as [j|] eqn:Hh; [by eexists|].
  by apply first_job_None in Hh.
Qed.

Lemma first_worker_None db worker_id :
  head (filter (λ w, (Worker.id w =? worker_id) = true) (workers db)) = None
  ↔ ¬ worker_exists db worker_id.
Proof.
  rewrite head_filter_None. unfold worker_exists. rewrite list_elem_of_fmap. split.
  - intros Hall (w & -> & Hw). apply (Hall w Hw). apply Z.eqb_refl.
  - intros Hno w Hw Heq. apply Hno. exists w. split; [|done]. symmetry. by apply Z.eqb_eq.
Qed.

Lemma first_worker_Some db worker_id w :
  head (filter (λ w, (Worker.id w =? worker_id) = true) (workers db)) = Some w →
  w ∈ workers db ∧ Worker.id w = worker_id.
Proof. intros Hh. apply head_filter_elem in Hh as [? ?%Z.eqb_eq]. done. Qed.

(** *** Listing jobs *)

(** C1, as the code has it.  In [get_jobs] the name [status] is the query
    parameter, so [status.HTTP_400_BAD_REQUEST] raises AttributeError before
    the [HTTPException] exists.  A request that supplies both [start_after]
    and [end_before] with [start_after > end_before] is answered with the
    server's 500, whatever the other parameters are; it gets no list of
    jobs, and the database is left as it was. *)
Theorem get_jobs_inverted_range_500 ilike collate keyword status
    (start_after end_before : date) sort_by desc db :
  date_gtb start_after end_before = true →
  GET_jobs ilike collate keyword status (Some start_after) (Some end_before) sort_by desc db
  = (ErrorDetail HTTP_500_INTERNAL_SERVER_ERROR "Internal Server Error", db).
Proof.
  intros Hgt. unfold GET_jobs, route, get_jobs, get_db.
  unfold truthy at 1 2, date_truthy. rewrite Hgt. cbn [andb].
  erewrite bind_inl by (unfold no_attribute, raise; reflexivity). reflexivity.
Qed.

Lemma get_jobs_inverted_range_500_witness :
  GET_jobs ilike_ascii collate_C None (Some "Completed"%string)
    (Some (d 2024 1 2)) (Some (d 2024 1 1)) (Some SortField.name) true db1
  = (ErrorDetail 500 "Internal Server Error", db1).
Proof. apply get_jobs_inverted_range_500. reflexivity. Defined.

Example get_jobs_inverted_range_example :
  GET_jobs ilike_ascii collate_C None None
    (Some (d 2024 1 2)) (Some (d 2024 1 1)) None false create_all
  = (ErrorDetail 500 "Internal Server Error", create_all).
Proof. reflexivity. Qed.

(** With the dates in order the listing is answered. *)
Example get_jobs_ordered_range_example :
  status_code_of
    (GET_jobs ilike_ascii collate_C None None
       (Some (d 2024 1 1)) (Some (d 2024 1 2)) None false db1).1 = 200.
Proof. reflexivity. Qed.

(** *** Creating jobs *)

Lemma fresh_job_id db : wf db → ¬ job_exists db (jobs_id_seq db).
Proof.
  intros Hwf. unfold job_exists. rewrite list_elem_of_fmap. intros (j & Hid & Hj).
  pose proof (wf_jobs_seq db Hwf) as Hseq. rewrite Forall_forall in Hseq.
  specialize (Hseq j Hj). lia.
Qed.

Lemma fresh_job_no_workers db : wf db → Job_workers db (jobs_id_seq db) = [].
Proof.
  intros Hwf. unfold Job_workers. apply filter_none. intros w Hw Hjob.
  apply (fresh_job_id db Hwf). by apply (wf_fkey db Hwf w).
Qed.

(** On a database the application built, the handler stores the job under
    the next id and returns it with no workers. *)
Lemma create_job_ok db (job : JobBase.t) :
  wf db →
  create_job job db
  = (inr (Some (JobResponse.mk (jobs_id_seq db) (JobBase.name job) (JobBase.customer job)
                  (JobBase.start_date job) (JobBase.end_date job) (JobBase.status job) [])),
     mkDatabase (jobs db ++ [Job_of (jobs_id_seq db) job]) (workers db)
       (jobs_id_seq db + 1) (workers_id_seq db)).
Proof.
  intros Hwf. pose proof (fresh_job_id db Hwf) as Hfresh.
  pose proof (fresh_job_no_workers db Hwf) as Hnow.
  assert (Hold : ∀ j, j ∈ jobs db → Job.id j ≠ jobs_id_seq db).
  { intros j Hj Heq. apply Hfresh. unfold job_exists. rewrite list_elem_of_fmap. eauto. }
  unfold create_job, get_db, except_ValueError.
  erewrite bind_inr; cycle 1.
  { unfold add_commit_Job. rewrite bool_decide_eq_false_2; [reflexivity | exact Hfresh]. }
  erewrite bind_inr; cycle 1.
  { unfold refresh_Job. cbn [jobs]. rewrite filter_app, (filter_none _ (jobs db)); [|exact Hold].
    rewrite filter_cons_True by done. reflexivity. }
  unfold first, Query_filter, query_Job_joinedload_workers. cbn [jobs Job.id].
  rewrite fmap_app, filter_app, filter_none; cycle 1.
  { intros x (j & -> & Hj)%list_elem_of_fmap. cbn. rewrite Z.eqb_eq. by apply Hold. }
  cbn [fmap list_fmap app]. rewrite filter_cons_True by apply Z.eqb_refl.
  cbn. unfold load_workers. cbn. unfold Job_workers in *. cbn [workers]. by rewrite Hnow.
Qed.

(** Nothing that runs inside [create_job] raises [ValueError]: the handler
    never replies 400. *)
Lemma POST_jobs_never_400 body db :
  status_code_of (POST_jobs body db).1 ≠ HTTP_400_BAD_REQUEST.
Proof.
  unfold POST_jobs, route_body. destruct (JobCreate_validate body) as [e|job]; [done|].
  unfold route, create_job, get_db, except_ValueError, mbind, Session_bind, add_commit_Job.
  case_bool_decide; [done|]. unfold refresh_Job.
  destruct (head (filter _ _)); done.
Qed.

(** C2, at the input of the specification's example.  A body whose status
    is "Pending" is rejected by the pattern of [JobBase.status], whatever its
    other fields: the reply is 422 and no job is stored. *)
Theorem create_job_Pending_rejected name customer start_date end_date db :
  ∃ errors,
    POST_jobs (JobBase.mk name customer start_date end_date (Some "Pending"%string)) db
    = (ErrorDetail HTTP_422_UNPROCESSABLE_ENTITY errors, db).
Proof.
  unfold POST_jobs, route_body, JobCreate_validate. cbn [JobBase.name JobBase.customer
    JobBase.start_date JobBase.end_date JobBase.status].
  destruct (negb (length_1_100 name)); [by eexists|].
  destruct (negb (length_1_100 customer)); [by eexists|].
  destruct (validate_dates end_date start_date); by eexists.
Qed.

Example create_job_Pending_example :
  POST_jobs job_A_pending create_all = (ErrorDetail 422 "status", create_all).
Proof. reflexivity. Qed.

(** The query parameter of [get_jobs] does accept "Pending". *)
Example get_jobs_accepts_Pending :
  get_jobs_status_pattern "Pending" = true ∧ JobBase_status_pattern "Pending" = false.
Proof. split; reflexivity. Qed.

(** The other statuses, and no status, are accepted: 201, the created job,
    no workers. *)
Lemma create_job_accepted db (body : JobBase.t) :
  wf db →
  length_1_100 (JobBase.name body) = true →
  length_1_100 (JobBase.customer body) = true →
  dates_ordered (JobBase.start_date body) (JobBase.end_date body) →
  stored_status (JobBase.status body) →
  POST_jobs body db
  = (Content HTTP_201_CREATED
       (Some (JobResponse.mk (jobs_id_seq db) (JobBase.name body) (JobBase.customer body)
                (JobBase.start_date body) (JobBase.end_date body) (JobBase.status body) [])),
     mkDatabase (jobs db ++ [Job_of (jobs_id_seq db) body]) (workers db)
       (jobs_id_seq db + 1) (workers_id_seq db)).
Proof.
  intros Hwf Hname Hcust Hdates Hst.
  unfold POST_jobs, route_body, JobCreate_validate. rewrite Hname, Hcust. cbn [negb].
  assert (Hv : validate_dates (JobBase.end_date body) (JobBase.start_date body)
               = inr (JobBase.end_date body)).
  { unfold validate_dates, dates_ordered in *.
    destruct (JobBase.start_date body), (JobBase.end_date body); try done.
    by rewrite Hdates, andb_false_r. }
  rewrite Hv. destruct body as [n c s e [st|]]; cbn in *.
  - rewrite Hst. unfold route. by rewrite create_job_ok.
  - unfold route. by rewrite create_job_ok.
Qed.

(** C3, as the code has it.  A body in which both dates are present and
    [end_date < start_date] is rejected while the [JobCreate] is built: the
    handler, and with it the clause that turns a [ValueError] into 400, is
    never entered.  The reply is 422 and nothing is stored. *)
Theorem create_job_end_before_start (body : JobBase.t) (s e : date) db :
  JobBase.start_date body = Some s →
  JobBase.end_date body = Some e →
  date_ltb e s = true →
  ∃ errors, POST_jobs body db = (ErrorDetail HTTP_422_UNPROCESSABLE_ENTITY errors, db).
Proof.
  intros Hs He Hlt. unfold POST_jobs, route_body, JobCreate_validate.
  destruct (negb (length_1_100 (JobBase.name body))); [by eexists|].
  destruct (negb (length_1_100 (JobBase.customer body))); [by eexists|].
  rewrite Hs, He. unfold validate_dates, truthy, date_truthy. rewrite Hlt. by eexists.
Qed.

Lemma create_job_end_before_start_witness :
  ∃ errors, POST_jobs job_backwards db1 = (ErrorDetail 422 errors, db1).
Proof.
  apply (create_job_end_before_start job_backwards (d 2024 5 2) (d 2024 5 1) db1);
    reflexivity.
Defined.

Example create_job_end_before_start_example :
  POST_jobs job_backwards create_all
  = (ErrorDetail 422 "end_date must be after start_date", create_all).
Proof. reflexivity. Qed.

(** *** Deleting jobs *)

(** What [DELETE /jobs/{job_id}] does, by the look-up of the handler. *)
Lemma delete_job_run db (job_id : Z) :
  DELETE_jobs job_id db
  = if decide (job_exists db job_id)
    then (Content HTTP_204_NO_CONTENT (),
          mkDatabase (filter (λ j, Job.id j ≠ job_id) (jobs db))
            (filter (λ w, Worker.job_id w ≠ Some job_id) (workers db))
            (jobs_id_seq db) (workers_id_seq db))
    else (ErrorDetail HTTP_404_NOT_FOUND ("Job with id " +:+ pretty job_id +:+ " not found"),
          db).
Proof.
  unfold DELETE_jobs, route, delete_job, get_db.
  destruct (decide (job_exists db job_id)) as [Hex|Hex].
  - destruct (first_job_exists db job_id Hex) as [j Hj].
    destruct (first_job_Some db job_id j Hj) as [_ Hid].
    erewrite bind_inr; [|unfold first, Query_filter, query_Job; by rewrite Hj].
    unfold delete_commit. by rewrite Hid.
  - apply first_job_None in Hex.
    erewrite bind_inr; [|unfold first, Query_filter, query_Job; by rewrite Hex].
    reflexivity.
Qed.

(** C4. When a job with the id exists, [deleteJob] answers 204 and leaves
    exactly the jobs with another id and the workers that did not reference
    it, each as it was and in the same order; when none exists it answers
    404 and the database is the same. *)
Theorem delete_job_cascade db (job_id : Z) :
  (job_exists db job_id →
   DELETE_jobs job_id db
   = (Content HTTP_204_NO_CONTENT (),
      mkDatabase (filter (λ j, Job.id j ≠ job_id) (jobs db))
        (filter (λ w, Worker.job_id w ≠ Some job_id) (workers db))
        (jobs_id_seq db) (workers_id_seq db)))
  ∧ (¬ job_exists db job_id →
     DELETE_jobs job_id db
     = (ErrorDetail HTTP_404_NOT_FOUND ("Job with id " +:+ pretty job_id +:+ " not found"),
        db)).
Proof.
  rewrite delete_job_run. split; intros Hex.
  - by rewrite decide_True.
  - by rewrite decide_False.
Qed.

Lemma delete_job_cascade_witness :
  DELETE_jobs 1 db1
  = (Content 204 (),
     mkDatabase [Job.mk 2 "A" "B" None None (Some "Completed"%string)]
       [Worker.mk 2 "W" "R" (Some 2); Worker.mk 3 "W" "R" None] 3 4)
  ∧ DELETE_jobs 5 db1 = (ErrorDetail 404 "Job with id 5 not found", db1).
Proof.
  split.
  - apply (proj1 (delete_job_cascade db1 1)). by_decide.
  - apply (proj2 (delete_job_cascade db1 5)). by_decide.
Defined.

(** Read as membership: what is gone and what stays. *)
Lemma delete_job_cascade_elem db job_id db' r :
  job_exists db job_id →
  DELETE_jobs job_id db = (r, db') →
  (∀ j, j ∈ jobs db' ↔ j ∈ jobs db ∧ Job.id j ≠ job_id)
  ∧ (∀ w, w ∈ workers db' ↔ w ∈ workers db ∧ Worker.job_id w ≠ Some job_id).
Proof.
  intros Hex Hrun. rewrite delete_job_run, decide_True in Hrun by done.
  injection Hrun as _ <-. cbn [jobs workers].
  split; intros x; rewrite list_elem_of_filter; tauto.
Qed.

(** *** Creating workers *)

Lemma truthy_int (n : Z) : n ≠ 0 → truthy n = true.
Proof. intros Hn. unfold truthy, int_truthy. by rewrite (proj2 (Z.eqb_neq n 0) Hn). Qed.

(** C8, at [job_id = 0].  The test [if worker.job_id:] is false for 0, so
    the handler does not look the job up; the INSERT then breaks a
    constraint, and [get_db] answers 500 where the specification has 404.
    No worker is stored. *)
Theorem create_worker_job_id_0 (body : WorkerBase.t) db :
  WorkerCreate_validate body = inr body →
  WorkerBase.job_id body = Some 0 →
  ¬ job_exists db 0 →
  ∃ db', POST_workers body db
         = (ErrorDetail HTTP_500_INTERNAL_SERVER_ERROR "Database error occurred", db')
         ∧ jobs db' = jobs db ∧ workers db' = workers db.
Proof.
  intros Hval Hjob Hno. unfold POST_workers, route_body. rewrite Hval.
  unfold route, create_worker, get_db. rewrite Hjob.
  unfold when_truthy, truthy, int_truthy. cbn [Z.eqb negb].
  unfold mbind, Session_bind, mret, Session_ret, add_commit_Worker. rewrite Hjob.
  case_bool_decide; [by eexists|].
  unfold workers_job_id_fkey. rewrite bool_decide_eq_false_2 by exact Hno.
  by eexists.
Qed.

Lemma create_worker_job_id_0_witness :
  ∃ db', POST_workers (worker_W (Some 0)) db1
         = (ErrorDetail 500 "Database error occurred", db')
         ∧ jobs db' = jobs db1 ∧ workers db' = workers db1.
Proof.
  apply (create_worker_job_id_0 (worker_W (Some 0)) db1); [reflexivity | reflexivity |].
  by_decide.
Defined.

Example create_worker_job_id_0_example :
  POST_workers (worker_W (Some 0)) create_all
  = (ErrorDetail 500 "Database error occurred", mkDatabase [] [] 1 2).
Proof. reflexivity. Qed.





(** *** Listing workers *)

(** C10. With [job_id = 0] the listing is the one without a [job_id]
    filter: alone it returns every worker, whatever their [job_id]; a
    nonzero [job_id] does filter. *)
Theorem get_workers_job_id_0 ilike (name role : option string) db :
  GET_workers ilike name role (Some 0) db = GET_workers ilike name role None db
  ∧ GET_workers ilike None None (Some 0) db = (Content 200 (workers db), db)
  ∧ (∀ job_id : Z, job_id ≠ 0 →
       GET_workers ilike None None (Some job_id) db
       = (Content 200 (filter (λ w, Worker.job_id w = Some job_id) (workers db)), db)).
Proof.
  split; [reflexivity|]. split; [reflexivity|].
  intros job_id Hnz. unfold GET_workers, route, get_workers, get_db, all.
  unfold if_truthy at 1. rewrite (truthy_int job_id Hnz).
  unfold if_truthy, Query_filter, query_Worker. do 2 f_equal.
  apply list_filter_iff. intros w. by rewrite bool_decide_eq_true.
Qed.

Lemma get_workers_job_id_0_witness :
  GET_workers ilike_ascii None None (Some 0) db1 = (Content 200 (workers db1), db1)
  ∧ GET_workers ilike_ascii None None (Some 2) db1
    = (Content 200 [Worker.mk 2 "W" "R" (Some 2)], db1).
Proof.
  split.
  - apply (get_workers_job_id_0 ilike_ascii None None db1).
  - apply (proj2 (proj2 (get_workers_job_id_0 ilike_ascii None None db1)) 2). lia.
Defined.

(** No worker of the sample has [job_id = 0], and all are listed. *)
Example get_workers_job_id_0_example :
  (GET_workers ilike_ascii None None (Some 0) db1).1
  = Content 200 [Worker.mk 1 "W" "R" (Some 1); Worker.mk 2 "W" "R" (Some 2);
                 Worker.mk 3 "W" "R" None].
Proof. reflexivity. Qed.

(** *** Assigning workers *)

Lemma assigned_id worker_id job_id w :
  Worker.id (assigned worker_id job_id w) = Worker.id w.
Proof. unfold assigned. by destruct (decide _). Qed.

Lemma head_filter_assigned (l : list Worker.t) worker_id job_id w :
  head (filter (λ x, (Worker.id x =? worker_id) = true) l) = Some w →
  head (filter (λ x, Worker.id x = worker_id) (assigned worker_id job_id <$> l))
  = Some (set_job_id job_id w).
Proof.
  induction l as [|a l IH]; [done|]. rewrite fmap_cons, !filter_cons, assigned_id.
  destruct (decide ((Worker.id a =? worker_id) = true)) as [Ha|Ha].
  - apply Z.eqb_eq in Ha. rewrite decide_True by done. intros [= ->]. cbn.
    unfold assigned. by rewrite decide_True.
  - rewrite Z.eqb_eq in Ha. rewrite decide_False by done. apply IH.
Qed.

(** What [PUT /workers/{worker_id}/assign/{job_id}] does, by the two
    look-ups of the handler. *)
Lemma assign_worker_run db worker_id job_id :
  PUT_workers_assign worker_id job_id db
  = match head (filter (λ w, (Worker.id w =? worker_id) = true) (workers db)) with
    | None =>
        (ErrorDetail HTTP_404_NOT_FOUND
           ("Worker with id " +:+ pretty worker_id +:+ " not found"), db)
    | Some w =>
        match head (filter (λ j, (Job.id j =? job_id) = true) (jobs db)) with
        | None =>
            (ErrorDetail HTTP_404_NOT_FOUND
               ("Job with id " +:+ pretty job_id +:+ " not found"), db)
        | Some _ =>
            (Content 200 (set_job_id job_id w),
             mkDatabase (jobs db) (assigned worker_id job_id <$> workers db)
               (jobs_id_seq db) (workers_id_seq db))
        end
    end.
Proof.
  unfold PUT_workers_assign, route, assign_worker_to_job, get_db.
  destruct (head (filter _ (workers db))) as [w|] eqn:Hw.
  - erewrite bind_inr; [|unfold first, Query_filter, query_Worker; by rewrite Hw].
    destruct (first_worker_Some db worker_id w Hw) as [_ Hid].
    destruct (head (filter _ (jobs db))) as [j|] eqn:Hj.
    + erewrite bind_inr; [|unfold first, Query_filter, query_Job; by rewrite Hj].
      cbn [truthy option_truthy Job_truthy negb].
      destruct (first_job_Some db job_id j Hj) as [Hin Hjid].
      erewrite bind_inr; cycle 1.
      { unfold set_job_id_commit, workers_job_id_fkey.
        rewrite bool_decide_eq_true_2; [reflexivity|].
        rewrite list_elem_of_fmap. eauto. }
      unfold refresh_assigned, refresh_Worker. cbn [workers]. rewrite Hid.
      fold (assigned worker_id job_id).
      by rewrite (head_filter_assigned _ _ _ w Hw).
    + erewrite bind_inr; [|unfold first, Query_filter, query_Job; by rewrite Hj].
      reflexivity.
  - erewrite bind_inr; [|unfold first, Query_filter, query_Worker; by rewrite Hw].
    reflexivity.
Qed.

(** C6. When the worker or the job is absent the reply is 404 and the
    database is the same; when both exist the reply carries the worker with
    [job_id] set to the job, and that is the worker stored under the id. *)
Theorem assign_worker_404_or_assigned db (worker_id job_id : Z) :
  (¬ worker_exists db worker_id ∨ ¬ job_exists db job_id →
   ∃ detail,
     PUT_workers_assign worker_id job_id db = (ErrorDetail HTTP_404_NOT_FOUND detail, db))
  ∧ (worker_exists db worker_id → job_exists db job_id →
     ∃ w db',
       w ∈ workers db ∧ Worker.id w = worker_id
       ∧ PUT_workers_assign worker_id job_id db = (Content 200 (set_job_id job_id w), db')
       ∧ set_job_id job_id w ∈ workers db'
       ∧ ∀ w', w' ∈ workers db' → Worker.id w' = worker_id →
               Worker.job_id w' = Some job_id).
Proof.
  rewrite assign_worker_run. split.
  - intros Habsent.
    destruct (head (filter _ (workers db))) as [w|] eqn:Hw; [|by eexists].
    destruct (head (filter _ (jobs db))) as [j|] eqn:Hj; [|by eexists].
    destruct Habsent as [Hno|Hno]; exfalso.
    + apply first_worker_None in Hno. congruence.
    + apply first_job_None in Hno. congruence.
  - intros Hwex Hjex.
    destruct (first_job_exists db job_id Hjex) as [j ->].
    destruct (head (filter _ (workers db))) as [w|] eqn:Hw;
      [|by apply first_worker_None in Hw].
    destruct (first_worker_Some db worker_id w Hw) as [Hin Hid].
    exists w, (mkDatabase (jobs db) (assigned worker_id job_id <$> workers db)
                 (jobs_id_seq db) (workers_id_seq db)).
    repeat split; [done | done | |].
    + cbn [workers]. rewrite list_elem_of_fmap. exists w. split; [|done].
      unfold assigned. by rewrite decide_True.
    + cbn [workers]. intros w' (x & -> & Hx)%list_elem_of_fmap. unfold assigned.
      destruct (decide (Worker.id x = worker_id)); [done|]. cbn. congruence.
Qed.

Lemma assign_worker_404_or_assigned_witness :
  (∃ detail, PUT_workers_assign 9 1 db1 = (ErrorDetail 404 detail, db1))
  ∧ (∃ detail, PUT_workers_assign 3 9 db1 = (ErrorDetail 404 detail, db1))
  ∧ ∃ w db', w ∈ workers db1 ∧ Worker.id w = 3
             ∧ PUT_workers_assign 3 2 db1 = (Content 200 (set_job_id 2 w), db')
             ∧ set_job_id 2 w ∈ workers db'
             ∧ ∀ w', w' ∈ workers db' → Worker.id w' = 3 → Worker.job_id w' = Some 2.
Proof.
  split; [|split].
  - apply (proj1 (assign_worker_404_or_assigned db1 9 1)). left. by_decide.
  - apply (proj1 (assign_worker_404_or_assigned db1 3 9)). right. by_decide.
  - apply (proj2 (assign_worker_404_or_assigned db1 3 2)); by_decide.
Defined.

(** C9. A successful [assignWorker] leaves the table of jobs and both
    sequences as they were, keeps every row of [workers] in its place with
    its id, name and role, leaves every worker with another id untouched,
    and returns a worker with the id, name and role of the one that was
    stored under [worker_id]. *)
Theorem assign_worker_frame db (worker_id job_id c : Z) (r : Worker.t) db' :
  PUT_workers_assign worker_id job_id db = (Content c r, db') →
  jobs db' = jobs db
  ∧ jobs_id_seq db' = jobs_id_seq db
  ∧ workers_id_seq db' = workers_id_seq db
  ∧ length (workers db') = length (workers db)
  ∧ (∀ (i : nat) w, workers db !! i = Some w →
       ∃ w', workers db' !! i = Some w'
             ∧ Worker.id w' = Worker.id w
             ∧ Worker.name w' = Worker.name w
             ∧ Worker.role w' = Worker.role w
             ∧ (Worker.id w ≠ worker_id → w' = w)
             ∧ (Worker.id w = worker_id → Worker.job_id w' = Some job_id))
  ∧ (∃ w, w ∈ workers db
          ∧ Worker.id w = worker_id
          ∧ Worker.id r = Worker.id w
          ∧ Worker.name r = Worker.name w
          ∧ Worker.role r = Worker.role w
          ∧ Worker.job_id r = Some job_id).
Proof.
  rewrite assign_worker_run.
  destruct (head (filter _ (workers db))) as [w|] eqn:Hw; [|done].
  destruct (head (filter _ (jobs db))) as [j|] eqn:Hj; [|done].
  intros [= _ <- <-]. cbn [jobs workers jobs_id_seq workers_id_seq].
  repeat split.
  - by rewrite length_fmap.
  - intros i x Hx. exists (assigned worker_id job_id x).
    rewrite list_lookup_fmap, Hx. cbn [fmap option_fmap option_map]. unfold assigned.
    destruct (decide (Worker.id x = worker_id)) as [Heq|Hne]; cbn; repeat split; done.
  - destruct (first_worker_Some db worker_id w Hw) as [Hin Hid]. by exists w.
Qed.

Lemma assign_worker_frame_witness :
  jobs (PUT_workers_assign 3 2 db1).2 = jobs db1
  ∧ workers (PUT_workers_assign 3 2 db1).2
    = [Worker.mk 1 "W" "R" (Some 1); Worker.mk 2 "W" "R" (Some 2);
       Worker.mk 3 "W" "R" (Some 2)].
Proof.
  split; [|reflexivity].
  apply (assign_worker_frame db1 3 2 200 (Worker.mk 3 "W" "R" (Some 2))
           (PUT_workers_assign 3 2 db1).2).
  reflexivity.
Defined.

(** *** What the operations preserve *)

Lemma wf_create_all : wf create_all.
Proof.
  split; cbn; try lia; try constructor.
  intros w job_id Hw. inversion Hw.
Qed.

Lemma job_exists_app db job_id (l : list Job.t) ws s1 s2 :
  job_exists db job_id → job_exists (mkDatabase (jobs db ++ l) ws s1 s2) job_id.
Proof. unfold job_exists. cbn. rewrite fmap_app, elem_of_app. auto. Qed.

(** A body that passes validation is the instance, and has the properties
    that were checked. *)
Lemma JobCreate_validate_inr body job :
  JobCreate_validate body = inr job →
  job = body
  ∧ length_1_100 (JobBase.name body) = true
  ∧ length_1_100 (JobBase.customer body) = true
  ∧ dates_ordered (JobBase.start_date body) (JobBase.end_date body)
  ∧ stored_status (JobBase.status body).
Proof.
  unfold JobCreate_validate.
  destruct (length_1_100 (JobBase.name body)); [|done].
  destruct (length_1_100 (JobBase.customer body)); [|done]. cbn [negb].
  destruct body as [n c s e st]. cbn.
  assert (Hd : ∀ x, validate_dates e s = inr x → x = e ∧ dates_ordered s e).
  { unfold validate_dates, dates_ordered. destruct s as [s|], e as [e|]; try by intros ? [= <-].
    unfold truthy, date_truthy. cbn [andb]. destruct (date_ltb e s); [done|]. by intros ? [= <-]. }
  destruct (validate_dates e s) as [?|x]; [done|]. destruct (Hd x eq_refl) as [-> Hord].
  destruct st as [st|].
  - destruct (JobBase_status_pattern st) eqn:Hp; [|done]. intros [= <-]. done.
  - intros [= <-]. done.
Qed.

Lemma WorkerCreate_validate_inr body worker :
  WorkerCreate_validate body = inr worker → worker = body.
Proof.
  unfold WorkerCreate_validate.
  destruct (length_1_100 (WorkerBase.name body)); [|done].
  destruct (length_1_100 (WorkerBase.role body)); [|done]. by intros [= <-].
Qed.

Lemma wf_POST_jobs body db : wf db → wf (POST_jobs body db).2.
Proof.
  intros Hwf. unfold POST_jobs, route_body.
  destruct (JobCreate_validate body) as [e|job] eqn:Hval; [done|].
  apply JobCreate_validate_inr in Hval as (-> & _ & _ & Hord & Hst).
  unfold route. rewrite create_job_ok by done. destruct Hwf. split; cbn.
  - lia.
  - done.
  - rewrite Forall_app. split.
    + eapply Forall_impl; [exact wf_jobs_seq0|]. cbn. lia.
    + constructor; [cbn; lia | constructor].
  - done.
  - rewrite fmap_app. apply NoDup_app. split; [done|]. split; [|apply NoDup_singleton].
    intros x Hx [->|[]%elem_of_nil]%elem_of_cons.
    rewrite Forall_forall in wf_jobs_seq0.
    apply list_elem_of_fmap in Hx as (j & Hid & Hj). specialize (wf_jobs_seq0 j Hj). cbn in *. lia.
  - done.
  - intros w job_id Hw Hjob. apply job_exists_app. by apply (wf_fkey0 w).
  - rewrite Forall_app. split; [done|]. by constructor.
  - rewrite Forall_app. split; [done|]. by constructor.
Qed.

(** The look-up that guards [create_worker] reads only. *)
Lemma job_guard_reads (job_id : option Z) db :
  ∃ r, when_truthy job_id (λ job_id,
         job ← first (Query_filter (λ j, Job.id j =? job_id) query_Job);
         if negb (truthy job) then raise (job_not_found job_id) else mret ()) db
       = (r, db).
Proof.
  unfold when_truthy. destruct job_id as [job_id|]; [|by eexists].
  destruct (truthy job_id); [|by eexists].
  unfold mbind, Session_bind, first. destruct (negb _); by eexists.
Qed.

(** The three databases [POST /workers/] can leave behind. *)
Lemma POST_workers_db (body : WorkerBase.t) db r db' :
  POST_workers body db = (r, db') →
  db' = db
  ∨ db' = mkDatabase (jobs db) (workers db) (jobs_id_seq db) (workers_id_seq db + 1)
  ∨ (¬ worker_exists db (workers_id_seq db)
     ∧ workers_job_id_fkey db (WorkerBase.job_id body) = true
     ∧ db' = mkDatabase (jobs db)
               (workers db ++ [Worker.mk (workers_id_seq db) (WorkerBase.name body)
                                 (WorkerBase.role body) (WorkerBase.job_id body)])
               (jobs_id_seq db) (workers_id_seq db + 1)).
Proof.
  unfold POST_workers, route_body.
  destruct (WorkerCreate_validate body) as [e|worker] eqn:Hval; [intros [= _ <-]; by left|].
  apply WorkerCreate_validate_inr in Hval as ->.
  unfold route, create_worker, get_db.
  destruct (job_guard_reads (WorkerBase.job_id body) db) as [g Hg].
  destruct g as [e|[]].
  - erewrite bind_inl by exact Hg. destruct e; intros [= _ <-]; by left.
  - erewrite bind_inr by exact Hg.
    unfold mbind, Session_bind, add_commit_Worker.
    case_bool_decide as Hpk; [intros [= _ <-]; right; by left|].
    destruct (workers_job_id_fkey db (WorkerBase.job_id body)) eqn:Hfk;
      [|intros [= _ <-]; right; by left].
    cbn [negb]. unfold refresh_Worker.
    destruct (head _); intros [= _ <-]; right; right; done.
Qed.

Lemma wf_POST_workers body db : wf db → wf (POST_workers body db).2.
Proof.
  intros Hwf. destruct (POST_workers body db) as [r db'] eqn:Hrun.
  destruct (POST_workers_db body db r db' Hrun) as [-> | [-> | (Hpk & Hfk & ->)]]; [done| |].
  - destruct Hwf. split; cbn; try done; try lia.
    eapply Forall_impl; [exact wf_workers_seq0|]. cbn. lia.
  - destruct Hwf. split; cbn; try done; try lia.
    + rewrite Forall_app. split.
      * eapply Forall_impl; [exact wf_workers_seq0|]. cbn. lia.
      * constructor; [cbn; lia | constructor].
    + rewrite fmap_app. apply NoDup_app. split; [done|]. split; [|apply NoDup_singleton].
      intros x Hx [->|[]%elem_of_nil]%elem_of_cons. by apply Hpk.
    + intros w job_id [Hw|[->|[]%elem_of_nil]%elem_of_cons]%elem_of_app Hjob.
      * by apply (wf_fkey0 w).
      * cbn in Hjob. rewrite Hjob in Hfk. by apply bool_decide_eq_true in Hfk.
Qed.

Lemma wf_PUT_workers_assign worker_id job_id db :
  wf db → wf (PUT_workers_assign worker_id job_id db).2.
Proof.
  intros Hwf. rewrite assign_worker_run.
  destruct (head (filter _ (workers db))) as [w|] eqn:Hw; [|done].
  destruct (head (filter _ (jobs db))) as [j|] eqn:Hj; [|done].
  destruct (first_job_Some db job_id j Hj) as [Hin Hjid].
  assert (Hids : Worker.id <$> (assigned worker_id job_id <$> workers db)
                 = Worker.id <$> workers db).
  { rewrite <- list_fmap_compose. apply list_fmap_ext. intros _ x _. apply assigned_id. }
  destruct Hwf. split; cbn; try done.
  - rewrite Forall_fmap. eapply Forall_impl; [exact wf_workers_seq0|].
    intros x. cbn. by rewrite assigned_id.
  - by rewrite Hids.
  - intros w' k (x & -> & Hx)%list_elem_of_fmap. unfold assigned.
    destruct (decide (Worker.id x = worker_id)).
    + cbn. intros [= <-]. unfold job_exists. cbn. rewrite list_elem_of_fmap. eauto.
    + intros Hk. apply (wf_fkey0 x k Hx Hk).
Qed.

Lemma wf_DELETE_jobs job_id db : wf db → wf (DELETE_jobs job_id db).2.
Proof.
  intros Hwf. rewrite delete_job_run.
  destruct (decide (job_exists db job_id)) as [Hdel|]; [|done].
  destruct Hwf. split; cbn; try done.
  - apply Forall_forall. intros j [_ Hj]%list_elem_of_filter.
    rewrite Forall_forall in wf_jobs_seq0. by apply wf_jobs_seq0.
  - apply Forall_forall. intros w [_ Hw]%list_elem_of_filter.
    rewrite Forall_forall in wf_workers_seq0. by apply wf_workers_seq0.
  - eapply sublist_NoDup; [exact wf_jobs_pkey0 | apply fmap_sublist, sublist_filter; apply _].
  - eapply sublist_NoDup; [exact wf_workers_pkey0 | apply fmap_sublist, sublist_filter; apply _].
  - intros w k [Hne Hw]%list_elem_of_filter Hk.
    pose proof (wf_fkey0 w k Hw Hk) as Hex. unfold job_exists in *. cbn.
    apply list_elem_of_fmap in Hex as (j' & -> & Hj).
    apply list_elem_of_fmap. exists j'. split; [done|].
    apply list_elem_of_filter. split; [|done]. congruence.
  - apply Forall_forall. intros j [_ Hj]%list_elem_of_filter.
    rewrite Forall_forall in wf_status0. by apply wf_status0.
  - apply Forall_forall. intros j [_ Hj]%list_elem_of_filter.
    rewrite Forall_forall in wf_dates0. by apply wf_dates0.
Qed.

Lemma wf_run db op : wf db → wf (run db op).
Proof.
  intros Hwf. destruct op; cbn [run].
  - by apply wf_POST_jobs.
  - by apply wf_POST_workers.
  - by apply wf_PUT_workers_assign.
  - by apply wf_DELETE_jobs.
Qed.

Lemma wf_foldl_run ops db : wf db → wf (foldl run db ops).
Proof.
  revert db. induction ops as [|op ops IH]; intros db Hwf; [done|].
  cbn. apply IH. by apply wf_run.
Qed.

Lemma wf_execute ops : wf (execute ops).
Proof. apply wf_foldl_run, wf_create_all. Qed.

(** Ids start at 1: no reachable database has a job 0. *)
Lemma execute_no_job_0 ops : ¬ job_exists (execute ops) 0.
Proof.
  unfold job_exists. rewrite list_elem_of_fmap. intros (j & Hid & Hj).
  pose proof (wf_jobs_seq _ (wf_execute ops)) as Hseq.
  rewrite Forall_forall in Hseq. specialize (Hseq j Hj). lia.
Qed.

(** C5. After any sequence of [createJob], [createWorker], [assignWorker]
    and [deleteJob] from the empty database, every worker whose [job_id] is
    set references a job that exists. *)
Theorem referential_integrity_reachable (ops : list Operation) :
  ∀ (w : Worker.t) (job_id : Z),
    w ∈ workers (execute ops) →
    Worker.job_id w = Some job_id →
    ∃ j, j ∈ jobs (execute ops) ∧ Job.id j = job_id.
Proof.
  intros w job_id Hw Hjob.
  pose proof (wf_fkey _ (wf_execute ops) w job_id Hw Hjob) as Hex.
  unfold job_exists in Hex. apply list_elem_of_fmap in Hex as (j & -> & Hj). eauto.
Qed.

Lemma referential_integrity_reachable_witness :
  ∃ j, j ∈ jobs db1 ∧ Job.id j = 2.
Proof.
  apply (referential_integrity_reachable
           [createJob job_A; createJob job_A_completed;
            createWorker (worker_W (Some 1)); createWorker (worker_W (Some 2));
            createWorker (worker_W None)]
           (Worker.mk 2 "W" "R" (Some 2)) 2).
  - apply (bool_decide_unpack _). vm_compute. exact I.
  - reflexivity.
Defined.

(** *** Analytics *)

Lemma sumZ_cons (x : Z) (l : list Z) : sumZ (x :: l) = x + sumZ l.
Proof. reflexivity. Qed.

(** With distinct keys, the dict of a list of pairs is the map of the list. *)
Lemma foldl_insert_union (pairs : list (string * Z)) (d : gmap string Z) :
  NoDup (pairs.*1) →
  foldl (λ d kv, <[kv.1 := kv.2]> d) d pairs = list_to_map pairs ∪ d.
Proof.
  revert d. induction pairs as [|[k v] pairs IH]; intros d Hnd.
  - cbn. by rewrite (left_id_L ∅ (∪)).
  - cbn [foldl fst snd]. cbn in Hnd. apply NoDup_cons in Hnd as [Hk Hnd].
    rewrite IH by done.
    rewrite list_to_map_cons, <- insert_union_l, insert_union_r; [done|].
    by apply not_elem_of_list_to_map_1.
Qed.

Lemma dict_list_to_map (pairs : list (string * Z)) :
  NoDup (pairs.*1) → dict pairs = list_to_map pairs.
Proof.
  intros Hnd. unfold dict. rewrite foldl_insert_union by done.
  by rewrite (right_id_L ∅ (∪)).
Qed.

Lemma dict_sum_insert (d : gmap string Z) k v :
  d !! k = None → dict_sum (<[k:=v]> d) = v + dict_sum d.
Proof.
  intros Hk. unfold dict_sum. rewrite map_fold_insert_L; [done| |done].
  intros. lia.
Qed.

Lemma dict_sum_pairs (pairs : list (string * Z)) :
  NoDup (pairs.*1) → dict_sum (dict pairs) = sumZ (pairs.*2).
Proof.
  intros Hnd. rewrite dict_list_to_map by done.
  induction pairs as [|[k v] pairs IH]; [done|].
  cbn in Hnd. apply NoDup_cons in Hnd as [Hk Hnd].
  rewrite list_to_map_cons, dict_sum_insert by by apply not_elem_of_list_to_map_1.
  rewrite fmap_cons, sumZ_cons. cbn [snd]. by rewrite IH.
Qed.

Lemma dict_lookup (pairs : list (string * Z)) k v :
  NoDup (pairs.*1) → dict pairs !! k = Some v ↔ (k, v) ∈ pairs.
Proof.
  intros Hnd. rewrite dict_list_to_map by done. symmetry. by apply elem_of_list_to_map.
Qed.

(** The counts of the groups add up to the number of rows. *)
Section group_by.
Context {A K : Type} `{EqDecision K} (column : A → K).

Lemma group_count_cons r rows k :
  group_count column (r :: rows) k
  = (if decide (column r = k) then 1 else 0) + group_count column rows k.
Proof.
  unfold group_count, func_count. rewrite filter_cons.
  destruct (decide (column r = k)); cbn [length]; lia.
Qed.

Lemma sum_indicator (x : K) (ks : list K) :
  NoDup ks →
  sumZ ((λ k, if decide (x = k) then 1 else 0) <$> ks) = if decide (x ∈ ks) then 1 else 0.
Proof.
  induction 1 as [|k ks Hk Hnd IH]; [done|]. rewrite fmap_cons, sumZ_cons, IH.
  destruct (decide (x = k)) as [->|Hne].
  - rewrite decide_False by done. rewrite decide_True by left. lia.
  - destruct (decide (x ∈ ks)) as [Hin|Hin].
    + rewrite decide_True by by right. lia.
    + rewrite decide_False; [lia|]. by intros [?|?]%elem_of_cons.
Qed.

Lemma sumZ_add {X} (f g : X → Z) (l : list X) :
  sumZ ((λ x, f x + g x) <$> l) = sumZ (f <$> l) + sumZ (g <$> l).
Proof. induction l as [|x l IH]; [done|]. rewrite !fmap_cons, !sumZ_cons, IH. lia. Qed.

Lemma sum_group_count (rows : list A) (ks : list K) :
  NoDup ks →
  (∀ r, r ∈ rows → column r ∈ ks) →
  sumZ (group_count column rows <$> ks) = func_count rows.
Proof.
  intros Hnd. induction rows as [|r rows IH]; intros Hks.
  - unfold group_count, func_count. cbn. clear.
    induction ks as [|k ks IH]; [done|]. rewrite fmap_cons, sumZ_cons, IH. lia.
  - erewrite list_fmap_ext; [|intros _ k _; apply group_count_cons].
    rewrite (sumZ_add (λ k, if decide (column r = k) then 1 else 0) (group_count column rows)).
    rewrite sum_indicator by done.
    rewrite decide_True by (apply Hks; left).
    rewrite IH; [unfold func_count; cbn [length]; lia|].
    intros x Hx. apply Hks. by right.
Qed.

Lemma group_by_count_run (q : Query A) db :
  group_by_count column q db
  = (inr ((λ k, (k, group_count column (q db) k)) <$> remove_dups (column <$> q db)), db).
Proof. reflexivity. Qed.

Lemma sum_group_by (rows : list A) :
  sumZ (group_count column rows <$> remove_dups (column <$> rows)) = func_count rows.
Proof.
  apply sum_group_count; [apply NoDup_remove_dups|].
  intros r Hr. apply elem_of_remove_dups, list_elem_of_fmap. eauto.
Qed.
End group_by.

Lemma status_key_stored s :
  JobBase_status_pattern s = true → status_key (Some s) = s ∧ s ≠ "Unspecified"%string.
Proof. intros H%bool_decide_eq_true. destruct H as [-> | [-> | ->]]; done. Qed.

Lemma status_key_inj x y :
  stored_status x → stored_status y → status_key x = status_key y → x = y.
Proof.
  destruct x as [s|], y as [t|]; cbn [stored_status]; intros Hx Hy; [| | |done].
  - destruct (status_key_stored s Hx) as [-> _], (status_key_stored t Hy) as [-> _].
    by intros ->.
  - destruct (status_key_stored s Hx) as [-> Hne]. done.
  - destruct (status_key_stored t Hy) as [-> Hne]. done.
Qed.

Lemma get_analytics_run db :
  GET_analytics db
  = (Content 200
       (JobAnalytics.mk
          (func_count (jobs db))
          (dict ((λ k, (status_key k, group_count Job.status (jobs db) k))
                   <$> remove_dups (Job.status <$> jobs db)))
          (func_count (workers db))
          (dict ((λ k, (k, group_count Worker.role (workers db) k))
                   <$> remove_dups (Worker.role <$> workers db)))),
     db).
Proof.
  unfold GET_analytics, route, get_analytics, get_db.
  erewrite bind_inr by reflexivity. erewrite bind_inr by apply group_by_count_run.
  erewrite bind_inr by reflexivity. erewrite bind_inr by apply group_by_count_run.
  rewrite <- list_fmap_compose. reflexivity.
Qed.

(** On a database the application built, the totals are the sums of the
    breakdowns, and the jobs without status are counted under
    "Unspecified". *)
Lemma analytics_totals_wf db :
  wf db →
  ∃ a, GET_analytics db = (Content 200 a, db)
       ∧ JobAnalytics.total_jobs a = dict_sum (JobAnalytics.jobs_by_status a)
       ∧ JobAnalytics.total_workers a = dict_sum (JobAnalytics.workers_by_role a)
       ∧ JobAnalytics.jobs_by_status a !! "Unspecified"%string
         = if decide (None ∈ Job.status <$> jobs db)
           then Some (group_count Job.status (jobs db) None)
           else None.
Proof.
  intros Hwf. eexists. split; [apply get_analytics_run|].
  cbn [JobAnalytics.total_jobs JobAnalytics.jobs_by_status JobAnalytics.total_workers
       JobAnalytics.workers_by_role].
  assert (Hstored : ∀ k, k ∈ remove_dups (Job.status <$> jobs db) → stored_status k).
  { intros k (j & -> & Hj)%elem_of_remove_dups%list_elem_of_fmap.
    pose proof (wf_status db Hwf) as Hst. rewrite Forall_forall in Hst. by apply Hst. }
  assert (Hkeys : NoDup (((λ k, (status_key k, group_count Job.status (jobs db) k))
                            <$> remove_dups (Job.status <$> jobs db)).*1)).
  { rewrite <- list_fmap_compose. apply NoDup_fmap_2_strong; [|apply NoDup_remove_dups].
    intros x y Hx Hy. cbn. apply status_key_inj; auto. }
  assert (Hroles : NoDup (((λ k, (k, group_count Worker.role (workers db) k))
                             <$> remove_dups (Worker.role <$> workers db)).*1)).
  { rewrite <- list_fmap_compose. cbn. rewrite list_fmap_id. apply NoDup_remove_dups. }
  split; [|split].
  - rewrite dict_sum_pairs by done. rewrite <- list_fmap_compose.
    symmetry. apply (sum_group_by Job.status).
  - rewrite dict_sum_pairs by done. rewrite <- list_fmap_compose.
    symmetry. apply (sum_group_by Worker.role).
  - destruct (decide (None ∈ Job.status <$> jobs db)) as [Hin|Hnot].
    + apply dict_lookup; [done|]. apply list_elem_of_fmap. exists None.
      split; [done|]. by apply elem_of_remove_dups.
    + destruct (dict _ !! _) as [v|] eqn:Hv; [exfalso|done].
      apply dict_lookup in Hv; [|done].
      apply list_elem_of_fmap in Hv as (k & Heq & Hin). injection Heq as Hk _.
      destruct k as [s|]; [|rewrite elem_of_remove_dups in Hin; exact (Hnot Hin)].
      destruct (status_key_stored s (Hstored _ Hin)) as [Hs Hne]. congruence.
Qed.

(** C7. In every state the operations lead to, [total_jobs] is the sum of
    the counts in [jobs_by_status], where the jobs without a status are
    counted under "Unspecified", and [total_workers] is the sum of the
    counts in [workers_by_role]. *)
Theorem analytics_totals (ops : list Operation) :
  ∃ a, GET_analytics (execute ops) = (Content 200 a, execute ops)
       ∧ JobAnalytics.total_jobs a = dict_sum (JobAnalytics.jobs_by_status a)
       ∧ JobAnalytics.total_workers a = dict_sum (JobAnalytics.workers_by_role a)
       ∧ JobAnalytics.jobs_by_status a !! "Unspecified"%string
         = if decide (None ∈ Job.status <$> jobs (execute ops))
           then Some (group_count Job.status (jobs (execute ops)) None)
           else None.
Proof. apply analytics_totals_wf, wf_execute. Qed.

Example analytics_example :
  ∃ a, GET_analytics db1 = (Content 200 a, db1)
       ∧ JobAnalytics.total_jobs a = 2
       ∧ map_to_list (JobAnalytics.jobs_by_status a)
         = [("Completed"%string, 1); ("Unspecified"%string, 1)]
       ∧ JobAnalytics.total_workers a = 3
       ∧ map_to_list (JobAnalytics.workers_by_role a) = [("R"%string, 3)].
Proof. eexists. split; [reflexivity|]. vm_compute. done. Qed.

(** ** Further properties *)

(** *** Reading one job *)

Lemma head_filter_load_workers db (job_id : Z) (l : list Job.t) :
  head (filter (λ x, (JobResponse.id x =? job_id) = true) (load_workers db <$> l))
  = load_workers db <$> head (filter (λ j, (Job.id j =? job_id) = true) l).
Proof.
  induction l as [|a l IH]; [done|]. rewrite fmap_cons, !filter_cons. cbn [load_workers JobResponse.id].
  destruct (decide ((Job.id a =? job_id) = true)); [done | exact IH].
Qed.

Lemma get_job_by_id_run db (job_id : Z) :
  GET_job job_id db
  = match head (filter (λ j, (Job.id j =? job_id) = true) (jobs db)) with
    | Some j => (Content 200 (load_workers db j), db)
    | None =>
        (ErrorDetail HTTP_404_NOT_FOUND ("Job with id " +:+ pretty job_id +:+ " not found"),
         db)
    end.
Proof.
  unfold GET_job, route, get_job_by_id, get_db.
  erewrite bind_inr; cycle 1.
  { unfold first, Query_filter, query_Job_joinedload_workers.
    by rewrite head_filter_load_workers. }
  by destruct (head _).
Qed.

Lemma get_job_workers_run db (job_id : Z) :
  GET_job_workers job_id db
  = if decide (job_exists db job_id)
    then (Content 200 (Job_workers db job_id), db)
    else (ErrorDetail HTTP_404_NOT_FOUND ("Job with id " +:+ pretty job_id +:+ " not found"),
          db).
Proof.
  unfold GET_job_workers, route, get_job_workers, get_db.
  destruct (decide (job_exists db job_id)) as [Hex|Hex].
  - destruct (first_job_exists db job_id Hex) as [j Hj].
    destruct (first_job_Some db job_id j Hj) as [_ Hid].
    erewrite bind_inr; [|unfold first, Query_filter, query_Job; by rewrite Hj].
    unfold relationship_workers. by rewrite Hid.
  - apply first_job_None in Hex.
    erewrite bind_inr; [|unfold first, Query_filter, query_Job; by rewrite Hex].
    reflexivity.
Qed.





(** *** Listing jobs and workers *)

Lemma if_truthy_filter {A B} `{Truthy A} (x : option A) (c : A → B → bool)
    (q : Query B) db :
  if_truthy x (λ v, Query_filter (c v)) q db
  = filter (λ r, criterion x c r = true) (q db).
Proof.
  unfold if_truthy, criterion. destruct x as [v|]; [destruct (truthy v)|]; try done.
  - symmetry. by apply filter_all.
  - symmetry. by apply filter_all.
Qed.

Lemma SortField_is_true (f : SortField.t) : truthy f = true.
Proof. by destruct f. Qed.

Lemma get_jobs_run ilike collate keyword status start_after end_before sort_by desc db :
  inverted_range start_after end_before = false →
  get_jobs ilike collate keyword status start_after end_before sort_by desc db
  = (inr (ordered collate sort_by desc
            (filter (λ j, job_matches ilike keyword status start_after end_before j = true)
               (load_workers db <$> jobs db))),
     db).
Proof.
  intros Hok. unfold get_jobs, get_db. unfold inverted_range in Hok. rewrite Hok.
  unfold all.
  assert (Hrows :
    if_truthy end_before (λ end_before,
      Query_filter (λ j, sql_le (JobResponse.end_date j) end_before))
      (if_truthy start_after (λ start_after,
         Query_filter (λ j, sql_ge (JobResponse.start_date j) start_after))
         (if_truthy status (λ status,
            Query_filter (λ j, bool_decide (JobResponse.status j = Some status)))
            (if_truthy keyword (λ keyword,
               Query_filter (λ j,
                 ilike (JobResponse.name j) ("%" +:+ keyword +:+ "%")
                 || ilike (JobResponse.customer j) ("%" +:+ keyword +:+ "%")))
               query_Job_joinedload_workers))) db
    = filter (λ j, job_matches ilike keyword status start_after end_before j = true)
        (load_workers db <$> jobs db)).
  { rewrite (if_truthy_filter end_before
               (λ end_before j, sql_le (JobResponse.end_date j) end_before)).
    rewrite (if_truthy_filter start_after
               (λ start_after j, sql_ge (JobResponse.start_date j) start_after)).
    rewrite (if_truthy_filter status
               (λ status j, bool_decide (JobResponse.status j = Some status))).
    rewrite (if_truthy_filter keyword
               (λ keyword j, ilike (JobResponse.name j) ("%" +:+ keyword +:+ "%")
                             || ilike (JobResponse.customer j) ("%" +:+ keyword +:+ "%"))).
    rewrite !list_filter_filter. apply list_filter_iff. intros j.
    unfold job_matches. rewrite !andb_true_iff. tauto. }
  destruct sort_by as [f|].
  - unfold if_truthy at 1. rewrite SortField_is_true.
    unfold Query_order_by. rewrite Hrows. reflexivity.
  - unfold if_truthy at 1. rewrite Hrows. reflexivity.
Qed.

Lemma get_jobs_inverted_run ilike collate keyword status start_after end_before
    sort_by desc db :
  inverted_range start_after end_before = true →
  ∃ msg,
    get_jobs ilike collate keyword status start_after end_before sort_by desc db
    = (inl (AttributeError msg), db).
Proof.
  intros Hinv. unfold get_jobs, get_db. unfold inverted_range in Hinv. rewrite Hinv.
  erewrite bind_inl by (unfold no_attribute, raise; reflexivity). by eexists.
Qed.

Lemma get_workers_run ilike name role job_id db :
  get_workers ilike name role job_id db
  = (inr (filter (λ w, worker_matches ilike name role job_id w = true) (workers db)), db).
Proof.
  unfold get_workers, get_db, all.
  rewrite (if_truthy_filter job_id
             (λ job_id w, bool_decide (Worker.job_id w = Some job_id))).
  rewrite (if_truthy_filter role
             (λ role w, ilike (Worker.role w) ("%" +:+ role +:+ "%"))).
  rewrite (if_truthy_filter name
             (λ name w, ilike (Worker.name w) ("%" +:+ name +:+ "%"))).
  rewrite !list_filter_filter. unfold query_Worker. do 2 f_equal.
  apply list_filter_iff. intros w. unfold worker_matches. rewrite !andb_true_iff. tauto.
Qed.

(** X3. The handlers behind the GET routes never write: whatever they are
    given, and whether they answer or fail, the database after the request
    is the database before it. *)
Theorem GET_routes_read_only ilike collate db :
  (∀ keyword status start_after end_before sort_by desc,
     (GET_jobs ilike collate keyword status start_after end_before sort_by desc db).2 = db)
  ∧ (∀ name role job_id, (GET_workers ilike name role job_id db).2 = db)
  ∧ (∀ job_id, (GET_job job_id db).2 = db)
  ∧ (∀ job_id, (GET_job_workers job_id db).2 = db)
  ∧ (GET_analytics db).2 = db.
Proof.
  split; [|split; [|split; [|split]]].
  - intros keyword status start_after end_before sort_by desc. unfold GET_jobs, route.
    destruct (inverted_range start_after end_before) eqn:Hinv.
    + destruct (get_jobs_inverted_run ilike collate keyword status start_after end_before
                  sort_by desc db Hinv) as [msg ->]. reflexivity.
    + by rewrite get_jobs_run.
  - intros name role job_id. unfold GET_workers, route. by rewrite get_workers_run.
  - intros job_id. rewrite get_job_by_id_run. by destruct (head _).
  - intros job_id. rewrite get_job_workers_run. by destruct (decide _).
  - by rewrite get_analytics_run.
Qed.



Lemma date_ltb_asym (a b : date) : date_ltb a b = true → date_ltb b a = false.
Proof.
  unfold date_ltb. intros H. apply not_true_iff_false. revert H.
  rewrite !orb_true_iff, !andb_true_iff, !orb_true_iff, !andb_true_iff,
    !Z.ltb_lt, !Z.eqb_eq. lia.
Qed.







(** The sample sorted by status, descending: the job without status first. *)
Example get_jobs_sorted_example :
  JobResponse.id <$>
    match (GET_jobs ilike_ascii collate_C None None None None
             (Some SortField.status) true db1).1 with
    | Content _ l => l
    | ErrorDetail _ _ => []
    end
  = [1; 2].
Proof. reflexivity. Qed.




(** *** Validation of the bodies *)

Lemma length_1_100_spec (s : string) :
  length_1_100 s = true ↔ (1 ≤ String.length s ≤ 100)%nat.
Proof. unfold length_1_100. cbv zeta. rewrite andb_true_iff, !Z.leb_le. lia. Qed.

Lemma stored_status_spec (status : option string) :
  stored_status status
  ↔ status = None ∨ status = Some "In Progress"%string
    ∨ status = Some "Completed"%string ∨ status = Some "Cancelled"%string.
Proof.
  destruct status as [s|]; cbn [stored_status]; [|by intuition].
  unfold JobBase_status_pattern. rewrite bool_decide_eq_true. split.
  - intros [-> | [-> | ->]]; auto.
  - intros [? | [[= ->] | [[= ->] | [= ->]]]]; [done | auto..].
Qed.

Lemma date_ltb_irrefl (a : date) : date_ltb a a = false.
Proof.
  destruct (date_ltb a a) eqn:H; [|done]. by rewrite (date_ltb_asym a a H) in H.
Qed.

Lemma JobCreate_validate_valid (body : JobBase.t) :
  length_1_100 (JobBase.name body) = true →
  length_1_100 (JobBase.customer body) = true →
  dates_ordered (JobBase.start_date body) (JobBase.end_date body) →
  stored_status (JobBase.status body) →
  JobCreate_validate body = inr body.
Proof.
  intros Hname Hcust Hdates Hst. unfold JobCreate_validate.
  rewrite Hname, Hcust. cbn [negb].
  assert (Hv : validate_dates (JobBase.end_date body) (JobBase.start_date body)
               = inr (JobBase.end_date body)).
  { unfold validate_dates, dates_ordered in *.
    destruct (JobBase.start_date body), (JobBase.end_date body); try done.
    by rewrite Hdates, andb_false_r. }
  rewrite Hv. destruct body as [n c s e [st|]]; cbn in *; [by rewrite Hst | done].
Qed.

(** X8. A body is accepted as a [JobCreate] exactly when [name] and
    [customer] have 1 to 100 characters, [end_date] is not before
    [start_date] when both are given (equal dates pass), and [status] is
    absent or one of "In Progress", "Completed", "Cancelled".  The instance
    is the body itself; every other body is answered with 422 and leaves the
    database as it was. *)
Theorem JobCreate_accepted_iff (body : JobBase.t) :
  (JobCreate_validate body = inr body
   ↔ (1 ≤ String.length (JobBase.name body) ≤ 100)%nat
     ∧ (1 ≤ String.length (JobBase.customer body) ≤ 100)%nat
     ∧ (∀ s e, JobBase.start_date body = Some s → JobBase.end_date body = Some e →
               date_ltb e s = false)
     ∧ (JobBase.status body = None ∨ JobBase.status body = Some "In Progress"%string
        ∨ JobBase.status body = Some "Completed"%string
        ∨ JobBase.status body = Some "Cancelled"%string))
  ∧ (∀ job, JobCreate_validate body = inr job → job = body)
  ∧ (JobCreate_validate body ≠ inr body →
     ∀ db, ∃ errors,
       POST_jobs body db = (ErrorDetail HTTP_422_UNPROCESSABLE_ENTITY errors, db))
  ∧ (∀ d, dates_ordered (Some d) (Some d)).
Proof.
  split; [|split; [|split]].
  - rewrite <- !length_1_100_spec, <- stored_status_spec. split.
    + intros (_ & Hn & Hc & Hd & Hs)%JobCreate_validate_inr. repeat split; try done.
      intros s e Hs' He'. unfold dates_ordered in Hd. by rewrite Hs', He' in Hd.
    + intros (Hn & Hc & Hd & Hs). apply JobCreate_validate_valid; try done.
      unfold dates_ordered.
      destruct (JobBase.start_date body) as [s|], (JobBase.end_date body) as [e|]; auto.
  - intros job Hjob. by apply JobCreate_validate_inr in Hjob as [? _].
  - intros Hrej db. unfold POST_jobs, route_body.
    destruct (JobCreate_validate body) as [e|job] eqn:Hval; [by eexists|].
    exfalso. apply Hrej. f_equal. by apply JobCreate_validate_inr in Hval as [? _].
  - intros d. apply date_ltb_irrefl.
Qed.

Lemma JobCreate_accepted_iff_witness :
  JobCreate_validate job_A_completed = inr job_A_completed
  ∧ ∃ errors, POST_jobs (JobBase.mk "" "B" None None None) db1 = (ErrorDetail 422 errors, db1).
Proof.
  split.
  - apply (proj1 (JobCreate_accepted_iff job_A_completed)). cbn.
    repeat split; try lia; [done | auto].
  - apply (proj1 (proj2 (proj2 (JobCreate_accepted_iff (JobBase.mk "" "B" None None None))))).
    vm_compute. discriminate.
Defined.

Lemma WorkerCreate_validate_spec (body : WorkerBase.t) :
  WorkerCreate_validate body = inr body
  ↔ length_1_100 (WorkerBase.name body) = true ∧ length_1_100 (WorkerBase.role body) = true.
Proof.
  unfold WorkerCreate_validate.
  destruct (length_1_100 (WorkerBase.name body)),
    (length_1_100 (WorkerBase.role body)); cbn; intuition congruence.
Qed.

(** X9. The body of [POST /workers/] is checked before the job is looked
    up: when [name] or [role] has no character or more than 100, the answer
    is 422 whatever [job_id] is, no sequence value is used and the database
    is as it was. *)
Theorem create_worker_invalid_body_422 (body : WorkerBase.t) db :
  ¬ ((1 ≤ String.length (WorkerBase.name body) ≤ 100)%nat
     ∧ (1 ≤ String.length (WorkerBase.role body) ≤ 100)%nat) →
  ∃ errors, POST_workers body db = (ErrorDetail HTTP_422_UNPROCESSABLE_ENTITY errors, db).
Proof.
  rewrite <- !length_1_100_spec. intros Hbad. unfold POST_workers, route_body.
  destruct (WorkerCreate_validate body) as [e|w] eqn:Hval; [by eexists|].
  exfalso. apply Hbad. apply WorkerCreate_validate_spec.
  by rewrite Hval, (WorkerCreate_validate_inr body w Hval).
Qed.

Lemma create_worker_invalid_body_422_witness :
  ∃ errors, POST_workers (WorkerBase.mk "" "R" (Some 99)) db1 = (ErrorDetail 422 errors, db1).
Proof.
  apply (create_worker_invalid_body_422 (WorkerBase.mk "" "R" (Some 99)) db1).
  cbn. lia.
Defined.

(** *** Operations in sequence *)

Lemma head_filter_snoc {A} (P : A → Prop) `{∀ x, Decision (P x)} (l : list A) (x : A) :
  (∀ y, y ∈ l → ¬ P y) → P x → head (filter P (l ++ [x])) = Some x.
Proof.
  intros Hl Hx. rewrite filter_app, (filter_none P l Hl).
  by rewrite filter_cons_True.
Qed.





(** X12. A deleted job is gone for every route: after [DELETE
    /jobs/{id}] of an existing job, reading the job, listing its workers
    and deleting it again all answer 404, and no worker references the
    id. *)
Theorem delete_job_then_404 db (job_id : Z) :
  job_exists db job_id →
  ∃ db',
    DELETE_jobs job_id db = (Content HTTP_204_NO_CONTENT (), db')
    ∧ status_code_of (GET_job job_id db').1 = HTTP_404_NOT_FOUND
    ∧ status_code_of (GET_job_workers job_id db').1 = HTTP_404_NOT_FOUND
    ∧ DELETE_jobs job_id db'
      = (ErrorDetail HTTP_404_NOT_FOUND ("Job with id " +:+ pretty job_id +:+ " not found"),
         db')
    ∧ ∀ w, w ∈ workers db' → Worker.job_id w ≠ Some job_id.
Proof.
  intros Hex. eexists. split; [by rewrite delete_job_run, decide_True|].
  set (db' := mkDatabase _ _ _ _).
  assert (Hgone : ¬ job_exists db' job_id).
  { unfold job_exists, db'. cbn [jobs]. rewrite list_elem_of_fmap.
    intros (j & Hid & [Hne _]%list_elem_of_filter). congruence. }
  split; [|split; [|split]].
  - rewrite get_job_by_id_run. by rewrite (proj2 (first_job_None db' job_id) Hgone).
  - rewrite get_job_workers_run. by rewrite decide_False.
  - rewrite delete_job_run. by rewrite decide_False.
  - unfold db'. cbn [workers]. by intros w [Hne _]%list_elem_of_filter.
Qed.

Lemma delete_job_then_404_witness :
  ∃ db',
    DELETE_jobs 1 db1 = (Content 204 (), db')
    ∧ status_code_of (GET_job 1 db').1 = 404
    ∧ DELETE_jobs 1 db' = (ErrorDetail 404 "Job with id 1 not found", db').
Proof.
  destruct (delete_job_then_404 db1 1) as (db' & Hdel & Hget & _ & Hagain & _).
  { by_decide. }
  exists db'. split; [exact Hdel|]. split; [exact Hget | exact Hagain].
Defined.

(** What each writing route can answer, and the database it leaves. *)
Lemma POST_jobs_outcome (body : JobBase.t) db :
  (∃ errors, POST_jobs body db = (ErrorDetail HTTP_422_UNPROCESSABLE_ENTITY errors, db))
  ∨ (job_exists db (jobs_id_seq db)
     ∧ POST_jobs body db
       = (ErrorDetail HTTP_500_INTERNAL_SERVER_ERROR "Database error occurred",
          mkDatabase (jobs db) (workers db) (jobs_id_seq db + 1) (workers_id_seq db)))
  ∨ (JobCreate_validate body = inr body
     ∧ ¬ job_exists db (jobs_id_seq db)
     ∧ ∃ r, POST_jobs body db
            = (Content HTTP_201_CREATED r,
               mkDatabase (jobs db ++ [Job_of (jobs_id_seq db) body]) (workers db)
                 (jobs_id_seq db + 1) (workers_id_seq db))).
Proof.
  unfold POST_jobs, route_body.
  destruct (JobCreate_validate body) as [e|job] eqn:Hval; [left; by eexists|].
  pose proof (JobCreate_validate_inr body job Hval) as [-> _].
  unfold route, create_job, get_db, except_ValueError.
  unfold mbind, Session_bind, add_commit_Job.
  case_bool_decide as Hpk; [right; left; by split|].
  right; right. split; [done|]. split; [done|].
  unfold refresh_Job. cbn [jobs]. rewrite head_filter_snoc; cycle 1.
  { intros j Hj Heq. apply Hpk. rewrite list_elem_of_fmap. eauto. }
  { done. }
  unfold first. by eexists.
Qed.

Lemma POST_workers_outcome (body : WorkerBase.t) db :
  (∃ errors, POST_workers body db = (ErrorDetail HTTP_422_UNPROCESSABLE_ENTITY errors, db))
  ∨ (∃ detail, POST_workers body db = (ErrorDetail HTTP_404_NOT_FOUND detail, db))
  ∨ POST_workers body db
    = (ErrorDetail HTTP_500_INTERNAL_SERVER_ERROR "Database error occurred",
       mkDatabase (jobs db) (workers db) (jobs_id_seq db) (workers_id_seq db + 1))
  ∨ (WorkerCreate_validate body = inr body
     ∧ ¬ worker_exists db (workers_id_seq db)
     ∧ workers_job_id_fkey db (WorkerBase.job_id body) = true
     ∧ POST_workers body db
       = (Content HTTP_201_CREATED (Worker_of (workers_id_seq db) body),
          mkDatabase (jobs db) (workers db ++ [Worker_of (workers_id_seq db) body])
            (jobs_id_seq db) (workers_id_seq db + 1))).
Proof.
  unfold POST_workers, route_body.
  destruct (WorkerCreate_validate body) as [e|worker] eqn:Hval; [left; by eexists|].
  pose proof (WorkerCreate_validate_inr body worker Hval) as ->.
  unfold route, create_worker, get_db.
  assert (Hguard :
    when_truthy (WorkerBase.job_id body) (λ job_id,
      job ← first (Query_filter (λ j, Job.id j =? job_id) query_Job);
      if negb (truthy job) then raise (job_not_found job_id) else mret ()) db
    = (inr (), db)
    ∨ ∃ detail,
        when_truthy (WorkerBase.job_id body) (λ job_id,
          job ← first (Query_filter (λ j, Job.id j =? job_id) query_Job);
          if negb (truthy job) then raise (job_not_found job_id) else mret ()) db
        = (inl (HTTPException HTTP_404_NOT_FOUND detail), db)).
  { unfold when_truthy. destruct (WorkerBase.job_id body) as [job_id|]; [|by left].
    destruct (truthy job_id); [|by left].
    unfold mbind, Session_bind, first. destruct (head _); cbn; [by left|].
    right. by eexists. }
  destruct Hguard as [Hg | [detail Hg]].
  - erewrite bind_inr by exact Hg.
    unfold mbind, Session_bind, add_commit_Worker.
    case_bool_decide as Hpk; [right; right; by left|].
    destruct (workers_job_id_fkey db (WorkerBase.job_id body)) eqn:Hfk;
      [|right; right; by left].
    cbn [negb]. right; right; right. split; [done|]. split; [done|]. split; [done|].
    unfold refresh_Worker. cbn [workers]. rewrite head_filter_snoc; cycle 1.
    { intros w Hw Heq. apply Hpk. rewrite list_elem_of_fmap. eauto. }
    { done. }
    reflexivity.
  - erewrite bind_inl by exact Hg. right; left. by eexists.
Qed.

(** X13. A failed write changes no table: whenever a writing operation is
    answered with a status of 400 or more, the jobs and the workers are the
    ones before the request. *)
Theorem failed_operation_writes_nothing db (op : Operation) :
  400 ≤ reply_status db op →
  jobs (run db op) = jobs db ∧ workers (run db op) = workers db.
Proof.
  destruct op as [body | body | worker_id job_id | job_id]; cbn [reply_status run].
  - destruct (POST_jobs_outcome body db) as [[e ->] | [[_ ->] | (_ & _ & r & ->)]];
      cbn; [done | done | unfold HTTP_201_CREATED; lia].
  - destruct (POST_workers_outcome body db) as [[e ->] | [[e ->] | [-> | (_ & _ & _ & ->)]]];
      cbn; [done | done | done | unfold HTTP_201_CREATED; lia].
  - rewrite assign_worker_run.
    destruct (head (filter _ (workers db))); [|done].
    destruct (head (filter _ (jobs db))); [cbn; lia | done].
  - rewrite delete_job_run. destruct (decide _); [cbn; unfold HTTP_204_NO_CONTENT; lia | done].
Qed.

Lemma failed_operation_writes_nothing_witness :
  jobs (run db1 (createWorker (worker_W (Some 0)))) = jobs db1
  ∧ workers (run db1 (createWorker (worker_W (Some 0)))) = workers db1.
Proof.
  apply (failed_operation_writes_nothing db1 (createWorker (worker_W (Some 0)))).
  vm_compute. discriminate.
Defined.



(** *** Ids *)

(** An operation adds at most the job of the next id, and the sequence
    never goes back. *)
Lemma run_jobs db (op : Operation) :
  jobs_id_seq db ≤ jobs_id_seq (run db op)
  ∧ ∀ k, job_exists (run db op) k → job_exists db k ∨ k = jobs_id_seq db.
Proof.
  destruct op as [body | body | worker_id job_id | job_id]; cbn [run].
  - destruct (POST_jobs_outcome body db) as [[e ->] | [[_ ->] | (_ & _ & r & ->)]];
      cbn [snd jobs_id_seq]; (split; [lia|]); auto.
    intros k. unfold job_exists. cbn [jobs]. rewrite fmap_app, elem_of_app.
    intros [?|Hk]; [by left|]. right. cbn in Hk. by apply list_elem_of_singleton in Hk.
  - destruct (POST_workers_outcome body db)
      as [[e ->] | [[e ->] | [-> | (_ & _ & _ & ->)]]]; cbn [snd jobs_id_seq];
      (split; [lia|]); auto.
  - rewrite assign_worker_run.
    destruct (head (filter _ (workers db))); [|split; [done | auto]].
    destruct (head (filter _ (jobs db))); (split; [done | auto]).
  - rewrite delete_job_run. destruct (decide _) as [Hdel|Hdel]; cbn [snd jobs_id_seq];
      (split; [lia|]); auto.
    intros k. unfold job_exists. cbn [jobs]. rewrite !list_elem_of_fmap.
    intros (j & -> & [_ Hj]%list_elem_of_filter). left. eauto.
Qed.

Lemma job_id_stays_absent (ops : list Operation) db (job_id : Z) :
  job_id < jobs_id_seq db → ¬ job_exists db job_id →
  ¬ job_exists (foldl run db ops) job_id.
Proof.
  revert db. induction ops as [|op ops IH]; intros db Hlt Hno; [done|].
  cbn [foldl]. destruct (run_jobs db op) as [Hseq Hjobs]. apply IH; [lia|].
  intros [Hold | ->]%Hjobs; [done | lia].
Qed.

(** X15. The id of a deleted job is never given again: once a job that
    existed has been deleted, no later sequence of operations brings a job
    with its id back. *)
Theorem deleted_job_id_never_reused (ops ops' : list Operation) (job_id : Z) :
  job_exists (execute ops) job_id →
  ¬ job_exists (execute (ops ++ deleteJob job_id :: ops')) job_id.
Proof.
  intros Hex. unfold execute. rewrite foldl_app. cbn [foldl].
  fold (execute ops). apply job_id_stays_absent.
  - cbn [run]. rewrite delete_job_run, decide_True by done. cbn [snd jobs_id_seq].
    unfold job_exists in Hex. apply list_elem_of_fmap in Hex as (j & -> & Hj).
    pose proof (wf_jobs_seq _ (wf_execute ops)) as Hseq. rewrite Forall_forall in Hseq.
    specialize (Hseq j Hj). lia.
  - cbn [run]. rewrite delete_job_run, decide_True by done. cbn [snd].
    unfold job_exists. cbn [jobs]. rewrite list_elem_of_fmap.
    intros (j & Hid & [Hne _]%list_elem_of_filter). congruence.
Qed.

Lemma deleted_job_id_never_reused_witness :
  ¬ job_exists
      (execute ([createJob job_A] ++ deleteJob 1 :: [createJob job_A; createJob job_A])) 1.
Proof.
  apply (deleted_job_id_never_reused [createJob job_A] [createJob job_A; createJob job_A] 1).
  by_decide.
Defined.

(** The jobs created after the deletion take the next ids. *)
Example deleted_job_id_example :
  Job.id <$> jobs (execute [createJob job_A; deleteJob 1; createJob job_A; createJob job_A])
  = [2; 3].
Proof. reflexivity. Qed.

Lemma NoDup_fmap_eq {A B} (f : A → B) (l : list A) (x y : A) :
  NoDup (f <$> l) → x ∈ l → y ∈ l → f x = f y → x = y.
Proof.
  intros Hnd [i Hi]%list_elem_of_lookup [k Hk]%list_elem_of_lookup Heq.
  assert (i = k) as ->; [|congruence].
  apply (NoDup_lookup (f <$> l) i k (f x) Hnd); rewrite list_lookup_fmap.
  - by rewrite Hi.
  - by rewrite Hk, Heq.
Qed.

(** X16. Ids are primary keys in every database the operations lead to:
    two jobs with the same id are the same row, two workers with the same
    id are the same row, and every id is at least 1 and below the next
    value of its sequence. *)
Theorem ids_are_keys (ops : list Operation) :
  (∀ j1 j2, j1 ∈ jobs (execute ops) → j2 ∈ jobs (execute ops) →
            Job.id j1 = Job.id j2 → j1 = j2)
  ∧ (∀ w1 w2, w1 ∈ workers (execute ops) → w2 ∈ workers (execute ops) →
              Worker.id w1 = Worker.id w2 → w1 = w2)
  ∧ (∀ j, j ∈ jobs (execute ops) → 1 ≤ Job.id j < jobs_id_seq (execute ops))
  ∧ (∀ w, w ∈ workers (execute ops) → 1 ≤ Worker.id w < workers_id_seq (execute ops)).
Proof.
  destruct (wf_execute ops). split; [|split; [|split]].
  - intros j1 j2. by apply NoDup_fmap_eq.
  - intros w1 w2. by apply NoDup_fmap_eq.
  - by apply Forall_forall.
  - by apply Forall_forall.
Qed.

Lemma ids_are_keys_witness :
  1 ≤ Job.id (Job.mk 2 "A" "B" None None (Some "Completed"%string)) < jobs_id_seq db1.
Proof.
  apply (proj1 (proj2 (proj2 (ids_are_keys
           [createJob job_A; createJob job_A_completed;
            createWorker (worker_W (Some 1)); createWorker (worker_W (Some 2));
            createWorker (worker_W None)])))).
  apply (bool_decide_unpack _). vm_compute. exact I.
Defined.

(** *** Stored rows *)

Lemma rows_valid_run db (op : Operation) : rows_valid db → rows_valid (run db op).
Proof.
  intros [Hjobs Hworkers].
  destruct op as [body | body | worker_id job_id | job_id]; cbn [run].
  - destruct (POST_jobs_outcome body db) as [[e ->] | [[_ ->] | (Hval & _ & r & ->)]];
      [by split | by split |].
    split; [|done]. cbn [snd jobs]. rewrite Forall_app. split; [done|].
    apply JobCreate_validate_inr in Hval as (_ & ? & ? & ? & ?). by repeat constructor.
  - destruct (POST_workers_outcome body db)
      as [[e ->] | [[e ->] | [-> | (Hval & _ & _ & ->)]]]; [by split | by split | by split |].
    split; [done|]. cbn [snd workers]. rewrite Forall_app. split; [done|].
    apply WorkerCreate_validate_spec in Hval as [? ?]. by repeat constructor.
  - rewrite assign_worker_run.
    destruct (head (filter _ (workers db))); [|by split].
    destruct (head (filter _ (jobs db))); [|by split].
    split; [done|]. cbn [snd workers]. rewrite Forall_fmap.
    eapply Forall_impl; [exact Hworkers|]. intros w Hw. unfold assigned. cbn.
    by destruct (decide _).
  - rewrite delete_job_run. destruct (decide _) as [Hdel|Hdel]; [|by split]. cbn [snd].
    split; cbn [jobs workers]; apply Forall_forall.
    + intros j [_ Hj]%list_elem_of_filter. rewrite Forall_forall in Hjobs. auto.
    + intros w [_ Hw]%list_elem_of_filter. rewrite Forall_forall in Hworkers. auto.
Qed.

(** X17. Every stored row passes the constraints of its schema, in every
    database the operations lead to: a job has a name and a customer of 1
    to 100 characters, an [end_date] that is not before its [start_date],
    and a status that is absent or one of the three accepted values; a
    worker has a name and a role of 1 to 100 characters.  So the response
    models, which repeat these constraints, accept every stored row. *)
Theorem stored_rows_valid (ops : list Operation) :
  (∀ j, j ∈ jobs (execute ops) →
        JobCreate_validate
          (JobBase.mk (Job.name j) (Job.customer j) (Job.start_date j) (Job.end_date j)
             (Job.status j))
        = inr (JobBase.mk (Job.name j) (Job.customer j) (Job.start_date j)
                 (Job.end_date j) (Job.status j)))
  ∧ (∀ w, w ∈ workers (execute ops) →
          WorkerCreate_validate (WorkerBase.mk (Worker.name w) (Worker.role w) (Worker.job_id w))
          = inr (WorkerBase.mk (Worker.name w) (Worker.role w) (Worker.job_id w))).
Proof.
  assert (Hvalid : rows_valid (execute ops)).
  { unfold execute. assert (Hinit : rows_valid create_all) by (split; constructor).
    revert Hinit. generalize create_all.
    induction ops as [|op ops IH]; intros db Hdb; [done|].
    cbn [foldl]. by apply IH, rows_valid_run. }
  destruct Hvalid as [Hjobs Hworkers].
  rewrite Forall_forall in Hjobs. rewrite Forall_forall in Hworkers. split.
  - intros j Hj. destruct (Hjobs j Hj) as (? & ? & ? & ?). by apply JobCreate_validate_valid.
  - intros w Hw. destruct (Hworkers w Hw) as [? ?]. by apply WorkerCreate_validate_spec.
Qed.

Lemma stored_rows_valid_witness :
  JobCreate_validate (JobBase.mk "A" "B" None None (Some "Completed"%string))
  = inr (JobBase.mk "A" "B" None None (Some "Completed"%string)).
Proof.
  apply (proj1 (stored_rows_valid
           [createJob job_A; createJob job_A_completed;
            createWorker (worker_W (Some 1)); createWorker (worker_W (Some 2));
            createWorker (worker_W None)])
           (Job.mk 2 "A" "B" None None (Some "Completed"%string))).
  apply (bool_decide_unpack _). vm_compute. exact I.
Defined.

(** *** Deleting and counting *)

Lemma length_filter_complement {A} (P : A → Prop) `{∀ x, Decision (P x)} (l : list A) :
  (length (filter (λ x, ¬ P x) l) = length l - length (filter P l))%nat.
Proof.
  pose proof (filter_app_complement P l) as Hperm.
  apply Permutation_length in Hperm. rewrite length_app in Hperm. lia.
Qed.

Lemma length_filter_key {A} (f : A → Z) (l : list A) (k : Z) :
  NoDup (f <$> l) → k ∈ f <$> l → length (filter (λ x, f x = k) l) = 1%nat.
Proof.
  induction l as [|a l IH]; [by intros _ ?%elem_of_nil|].
  rewrite fmap_cons, NoDup_cons, filter_cons. intros [Ha Hnd] Hk.
  destruct (decide (f a = k)) as [<-|Hne].
  - cbn [length]. f_equal. rewrite filter_none; [done|].
    intros x Hx Heq. apply Ha. rewrite list_elem_of_fmap. eauto.
  - apply IH; [done|]. by apply elem_of_cons in Hk as [?|?].
Qed.

(** X18. Deleting a job shows in the analytics: on a database the
    application built, after [DELETE /jobs/{id}] of an existing job
    [total_jobs] is one less, and [total_workers] is less by the number of
    workers that referenced the job. *)
Theorem delete_job_analytics db (job_id : Z) :
  wf db →
  job_exists db job_id →
  ∃ a a' db',
    GET_analytics db = (Content 200 a, db)
    ∧ DELETE_jobs job_id db = (Content HTTP_204_NO_CONTENT (), db')
    ∧ GET_analytics db' = (Content 200 a', db')
    ∧ JobAnalytics.total_jobs a' = JobAnalytics.total_jobs a - 1
    ∧ JobAnalytics.total_workers a'
      = JobAnalytics.total_workers a
        - Z.of_nat (length (filter (λ w, Worker.job_id w = Some job_id) (workers db))).
Proof.
  intros Hwf Hex. eexists _, _, _.
  split; [apply get_analytics_run|].
  split; [by rewrite delete_job_run, decide_True|].
  split; [apply get_analytics_run|].
  cbn [JobAnalytics.total_jobs JobAnalytics.total_workers jobs workers]. unfold func_count.
  rewrite (length_filter_complement (λ j, Job.id j = job_id)).
  rewrite (length_filter_complement (λ w, Worker.job_id w = Some job_id)).
  rewrite (length_filter_key Job.id (jobs db) job_id (wf_jobs_pkey db Hwf) Hex).
  pose proof (length_filter (λ w, Worker.job_id w = Some job_id) (workers db)).
  assert (0 < length (jobs db))%nat; [|lia].
  unfold job_exists in Hex. destruct (jobs db); [by apply elem_of_nil in Hex | cbn; lia].
Qed.

Lemma delete_job_analytics_witness :
  ∃ a a' db',
    GET_analytics db1 = (Content 200 a, db1)
    ∧ DELETE_jobs 1 db1 = (Content 204 (), db')
    ∧ GET_analytics db' = (Content 200 a', db')
    ∧ JobAnalytics.total_jobs a' = JobAnalytics.total_jobs a - 1
    ∧ JobAnalytics.total_workers a' = JobAnalytics.total_workers a - 1.
Proof.
  apply (delete_job_analytics db1 1 (wf_execute _)). by_decide.
Defined.

(** *** Assigning twice, and from one job to another *)

Lemma assigned_idemp worker_id job_id w :
  assigned worker_id job_id (assigned worker_id job_id w) = assigned worker_id job_id w.
Proof.
  unfold assigned. destruct (decide (Worker.id w = worker_id)) as [Heq|Hne].
  - cbn. by rewrite decide_True.
  - by rewrite decide_False.
Qed.

Lemma head_filter_id_assigned (l : list Worker.t) worker_id job_id :
  head (filter (λ x, (Worker.id x =? worker_id) = true) (assigned worker_id job_id <$> l))
  = assigned worker_id job_id
      <$> head (filter (λ x, (Worker.id x =? worker_id) = true) l).
Proof.
  induction l as [|a l IH]; [done|]. rewrite fmap_cons, !filter_cons, assigned_id.
  destruct (decide ((Worker.id a =? worker_id) = true)); [done | exact IH].
Qed.

(** X19. The assignment is idempotent: the same request sent again gets
    the same answer and leaves the same database. *)
Theorem assign_worker_idempotent db (worker_id job_id : Z) :
  PUT_workers_assign worker_id job_id (PUT_workers_assign worker_id job_id db).2
  = PUT_workers_assign worker_id job_id db.
Proof.
  rewrite (assign_worker_run db).
  destruct (head (filter _ (workers db))) as [w|] eqn:Hw;
    [|cbn [snd]; by rewrite assign_worker_run, Hw].
  destruct (head (filter _ (jobs db))) as [j|] eqn:Hj;
    [|cbn [snd]; by rewrite assign_worker_run, Hw, Hj].
  cbn [snd]. rewrite assign_worker_run. cbn [jobs workers jobs_id_seq workers_id_seq].
  rewrite head_filter_id_assigned, Hw, Hj. cbn [fmap option_fmap option_map].
  destruct (first_worker_Some db worker_id w Hw) as [_ Hid].
  rewrite <- list_fmap_compose.
  rewrite (list_fmap_ext (assigned worker_id job_id ∘ assigned worker_id job_id)
             (assigned worker_id job_id) (workers db));
    [|intros _ x _; apply assigned_idemp].
  unfold assigned at 1. by rewrite decide_True.
Qed.




(** *** The breakdowns of the analytics *)



(** *** Unassigned workers, and the cascade after an assignment *)



(** X23. The cascade follows the assignment: when a worker has been
    assigned to a job and the job is then deleted, the worker is deleted
    with it. *)
Theorem assign_then_delete_removes_worker db (worker_id job_id : Z) :
  worker_exists db worker_id →
  job_exists db job_id →
  ∃ w db' db'',
    PUT_workers_assign worker_id job_id db = (Content 200 w, db')
    ∧ DELETE_jobs job_id db' = (Content HTTP_204_NO_CONTENT (), db'')
    ∧ ¬ worker_exists db'' worker_id
    ∧ ¬ job_exists db'' job_id.
Proof.
  intros Hwex Hjex. rewrite assign_worker_run.
  destruct (first_job_exists db job_id Hjex) as [j ->].
  destruct (head (filter _ (workers db))) as [w|] eqn:Hw;
    [|by apply first_worker_None in Hw].
  eexists _, _, _. split; [reflexivity|].
  split; [by rewrite delete_job_run, decide_True|].
  split.
  - unfold worker_exists. cbn [workers]. rewrite list_elem_of_fmap.
    intros (x & Hid & [Hne (y & -> & Hy)%list_elem_of_fmap]%list_elem_of_filter).
    rewrite assigned_id in Hid. apply Hne. unfold assigned.
    by rewrite decide_True.
  - unfold job_exists. cbn [jobs]. rewrite list_elem_of_fmap.
    intros (x & Hid & [Hne _]%list_elem_of_filter). congruence.
Qed.

Lemma assign_then_delete_removes_worker_witness :
  ∃ w db' db'',
    PUT_workers_assign 3 2 db1 = (Content 200 w, db')
    ∧ DELETE_jobs 2 db' = (Content 204 (), db'')
    ∧ ¬ worker_exists db'' 3
    ∧ ¬ job_exists db'' 2.
Proof. apply (assign_then_delete_removes_worker db1 3 2); by_decide. Defined.
